(** * XBRL fact extraction: a shallow embedding of [parser.py]

    The development follows the layout of the Python module: string
    primitives of the Python runtime that the parser calls, the lxml tree
    as the parser sees it, [find_xbrl_files], [get_local_name],
    [parse_xbrl_file] and [XBRLParser.parse_directory], and then the
    properties of each.

    Conventions.  A Python [str] is a [string] with one [ascii] per code
    point (code points below 256).  A Python [dict] is a [gmap]; [None] is
    [PyNone] where a value may be of several types and an [option]
    elsewhere; a test [if x:] on an optional string is a match on
    [Some (String _ _)].  A raised exception is the [Raise] case of
    [result].
    The [verbose] flag only prints and is left out. *)

From stdpp Require Import gmap strings list fin_maps.
From Stdlib Require Import Ascii String.

(** ** Python string primitives *)

Module Py.

(** [sub in s] *)
Fixpoint contains (sub s : string) : bool :=
  String.prefix sub s ||
  match s with
  | "" => false
  | String _ r => contains sub r
  end.

(** [s.endswith(suffix)] *)
Fixpoint endswith (suffix s : string) : bool :=
  String.eqb s suffix ||
  match s with
  | "" => false
  | String _ r => endswith suffix r
  end.

(** [s.split(sep, 1)] for a one-character separator: the text before the
    first separator, and the text after it when there is one. *)
Fixpoint split1 (sep : ascii) (s : string) : string * option string :=
  match s with
  | "" => ("", None)
  | String c r =>
      if Ascii.eqb c sep then ("", Some r)
      else let '(h, t) := split1 sep r in (String c h, t)
  end.

(** [str.isspace] on one code point below 256: TAB, LF, VT, FF, CR,
    FS, GS, RS, US, SPACE, NEL and NBSP. *)
Definition is_space (c : ascii) : bool :=
  let n := nat_of_ascii c in
  (((9 <=? n) && (n <=? 13)) || ((28 <=? n) && (n <=? 32))
   || (n =? 133) || (n =? 160)).

Fixpoint lstrip_by (p : ascii -> bool) (s : string) : string :=
  match s with
  | "" => ""
  | String c r => if p c then lstrip_by p r else s
  end.

Fixpoint rstrip_by (p : ascii -> bool) (s : string) : string :=
  match s with
  | "" => ""
  | String c r =>
      match rstrip_by p r with
      | "" => if p c then "" else String c ""
      | r' => String c r'
      end
  end.

(** [s.strip()] *)
Definition strip (s : string) : string :=
  lstrip_by is_space (rstrip_by is_space s).

(** [s.strip(chars)] for a one-character [chars] *)
Definition strip_char (ch : ascii) (s : string) : string :=
  lstrip_by (Ascii.eqb ch) (rstrip_by (Ascii.eqb ch) s).

(** [str.lower] on one code point below 256: A-Z, and the Latin-1
    capitals 192-222 except the multiplication sign 215. *)
Definition lower_char (c : ascii) : ascii :=
  let n := nat_of_ascii c in
  if (((65 <=? n) && (n <=? 90))
      || ((192 <=? n) && (n <=? 222) && negb (n =? 215)))
  then ascii_of_nat (n + 32) else c.

Fixpoint lower (s : string) : string :=
  match s with
  | "" => ""
  | String c r => String (lower_char c) (lower r)
  end.

(** [str.isdigit] restricted to what the glob class [[0-9]] accepts. *)
Definition in_range (lo hi c : ascii) : bool :=
  ((nat_of_ascii lo <=? nat_of_ascii c)
   && (nat_of_ascii c <=? nat_of_ascii hi)).

(** A string with no white space at either end. *)
Definition starts_clean (s : string) : Prop :=
  forall c r, s = String c r -> is_space c = false.
Definition ends_clean (s : string) : Prop :=
  forall r c, s = r +:+ String c "" -> is_space c = false.
Definition trimmed (s : string) : Prop := starts_clean s /\ ends_clean s.

End Py.

Example strip_ex : Py.strip "  12 000
 " = "12 000".
Proof. reflexivity. Qed.

Example split1_ex : Py.split1 "}" "{u}a}b" = ("{u", Some "a}b").
Proof. reflexivity. Qed.

Example lower_ex : Py.lower "Report_LABEL1.xml" = "report_label1.xml".
Proof. reflexivity. Qed.

(** ** Exceptions *)

Inductive exn :=
| TypeError | KeyError | AttributeError | OSError | XMLSyntaxError.

Inductive result (A : Type) :=
| Ok (a : A)
| Raise (e : exn).
Arguments Ok {A} a.
Arguments Raise {A} e.

#[global] Instance result_ret : MRet result := fun A a => Ok a.
#[global] Instance result_bind : MBind result := fun A B k r =>
  match r with
  | Ok a => k a
  | Raise e => Raise e
  end.

(** A [for] loop whose body may raise: the state is threaded through the
    items in order and the first exception ends the loop. *)
Fixpoint for_each {S X} (body : S -> X -> result S) (xs : list X) (s : S)
  : result S :=
  match xs with
  | [] => Ok s
  | x :: xs' => s' ← body s x; for_each body xs' s'
  end.

(** ** Python values held in the context and fact dictionaries *)

Inductive pyval :=
| PyNone
| PyStr (s : string)
| PyDict (d : gmap (option string) string).

#[global] Instance pyval_eq_dec : EqDecision pyval.
Proof. solve_decision. Defined.

Abbreviation pydict := (gmap string pyval).

Definition of_opt (o : option string) : pyval :=
  match o with
  | Some s => PyStr s
  | None => PyNone
  end.

(** [d[k]] *)
Definition getitem {V} (d : gmap string V) (k : string) : result V :=
  match d !! k with
  | Some v => Ok v
  | None => Raise KeyError
  end.

(** [d.get(k)] *)
Definition dict_get (d : pydict) (k : string) : pyval :=
  default PyNone (d !! k).

(** ** The lxml tree

    A node of the tree is an element, whose [tag] is a [str], or a comment,
    processing instruction or entity, whose [tag] is a function object;
    [repr] is what [str] gives on that object.  [text] is [None] for an
    element with no text.  Iterating over an element gives its children,
    special nodes included. *)

#[warning="-register-all"]
Inductive node :=
| Element (tag : string) (attrib : gmap string string)
          (text : option string) (children : list node)
| Special (repr : string).

(** The value of [elem.tag]. *)
Inductive tag_t :=
| StrTag (s : string)
| ObjTag (repr : string).

Definition children_of (n : node) : list node :=
  match n with
  | Element _ _ _ cs => cs
  | Special _ => []
  end.

(** [root.iter()]: the node and its descendants in document order. *)
Fixpoint iter (n : node) : list node :=
  match n with
  | Element _ _ _ cs => n :: flat_map iter cs
  | Special _ => [n]
  end.

(** The parsed document: the root element and [root.nsmap], the prefix to
    namespace bindings in the order [items()] gives them; the default
    namespace has prefix [None]. *)
Record document := {
  root : node;
  nsmap : list (option string * string)
}.

(** ** [get_local_name] *)

Definition get_local_name (tag : tag_t) : option string :=
  match tag with
  | StrTag tag =>
      Some (if Py.contains "}" tag
            then default "" (snd (Py.split1 "}" tag))
            else tag)
  | ObjTag tag_str =>
      if Py.contains "<cyfunction" tag_str
         || Py.contains "<cython_function_or_method" tag_str
      then None
      else Some tag_str
  end.

Example get_local_name_ex1 :
  get_local_name (StrTag "{http://www.xbrl.org/2003/instance}context")
  = Some "context".
Proof. reflexivity. Qed.

Example get_local_name_ex2 :
  get_local_name (ObjTag "<cyfunction Comment at 0x7f3a5c0b1a00>") = None.
Proof. reflexivity. Qed.

(** ** The file system as the parser uses it *)

(** What libxml2 makes of the file at a path: the file cannot be read; or
    its text gives no document at all (an empty file); or it gives a
    document.  [Document true _] is the document of a well-formed text,
    [Document false t] is what libxml2 could build from a text that is not
    well formed (a truncated file, a mismatched tag).  [getroot] is [None]
    when the document has no root element. *)
Inductive libxml_result :=
| Unreadable
| NoDocument
| Document (well_formed : bool) (getroot : option document).

(** [listdir] gives the entry names of a directory, in the order
    [os.scandir] lists them, and no name for a path that is not a readable
    directory; the empty path stands for the current directory.
    [iglob_dirs] gives the existing directories that a directory name with
    wildcard characters stands for (what [glob] finds when it expands the
    directory part of a pattern).  [libxml] gives what libxml2 makes of a
    file. *)
Record filesystem := {
  listdir : string -> list string;
  iglob_dirs : string -> list string;
  libxml : string -> libxml_result
}.

Inductive parse_outcome :=
| Raises (e : exn)
| Tree (getroot : option document).

(** [etree.parse(path, etree.XMLParser(recover=recover, ...))]: a file that
    cannot be read raises [OSError] and a text that gives no document
    raises [XMLSyntaxError]; a document that is not well formed raises
    [XMLSyntaxError] unless the parser recovers, and then the tree of what
    could be read is returned. *)
Definition parse_with (recover : bool) (r : libxml_result) : parse_outcome :=
  match r with
  | Unreadable => Raises OSError
  | NoDocument => Raises XMLSyntaxError
  | Document well_formed getroot =>
      if recover || well_formed then Tree getroot else Raises XMLSyntaxError
  end.

(** [parser = etree.XMLParser(recover=True, remove_blank_text=True)] and
    [etree.parse(file_path, parser)] *)
Definition etree_parse (fs : filesystem) (file_path : string) : parse_outcome :=
  parse_with true (libxml fs file_path).

(** ** [glob] and [os.path] (POSIX) *)

Module Glob.

(** The [fnmatch] syntax: [*], [?], a class [[lo-hi]], and literals. *)
Inductive item :=
| Star
| AnyChar
| Class (lo hi : ascii)
| Lit (c : ascii).

Fixpoint compile (pat : string) : list item :=
  match pat with
  | "" => []
  | String "*" r => Star :: compile r
  | String "?" r => AnyChar :: compile r
  | String "[" (String lo (String "-" (String hi (String "]" r)))) =>
      Class lo hi :: compile r
  | String c r => Lit c :: compile r
  end.

Fixpoint matches (pat : list item) (name : string) : bool :=
  match pat with
  | [] => match name with "" => true | _ => false end
  | Star :: pat' =>
      (fix star (s : string) : bool :=
         matches pat' s ||
         match s with
         | "" => false
         | String _ r => star r
         end) name
  | AnyChar :: pat' =>
      match name with
      | "" => false
      | String _ r => matches pat' r
      end
  | Class lo hi :: pat' =>
      match name with
      | "" => false
      | String a r => Py.in_range lo hi a && matches pat' r
      end
  | Lit c :: pat' =>
      match name with
      | "" => false
      | String a r => Ascii.eqb a c && matches pat' r
      end
  end.

(** [fnmatch.fnmatch(name, pat)] *)
Definition fnmatch (name pat : string) : bool := matches (compile pat) name.

(** [glob._ishidden] *)
Definition ishidden (name : string) : bool := String.prefix "." name.

(** [os.path.join(a, b)] *)
Definition path_join (a b : string) : string :=
  if String.prefix "/" b then b
  else match a with
       | "" => b
       | _ => if Py.endswith "/" a then a +:+ b else a +:+ "/" +:+ b
       end.

(** [os.path.basename(p)]: what follows the last [/]. *)
Fixpoint basename (p : string) : string :=
  match p with
  | "" => ""
  | String _ r => if Py.contains "/" p then basename r else p
  end.

(** [p[:i]] for [i = p.rfind('/') + 1]: [p] up to its last [/]. *)
Fixpoint head_of (p : string) : string :=
  match p with
  | "" => ""
  | String c r => if Py.contains "/" p then String c (head_of r) else ""
  end.

(** [s == '/' * len(s)] *)
Fixpoint all_sep (s : string) : bool :=
  match s with
  | "" => true
  | String c r => Ascii.eqb c "/" && all_sep r
  end.

(** [os.path.split(p)]: the head loses its trailing slashes unless it is
    made of slashes only. *)
Definition split (p : string) : string * string :=
  let head := head_of p in
  let tail := basename p in
  let head :=
    if negb (String.eqb head "") && negb (all_sep head)
    then Py.rstrip_by (Ascii.eqb "/") head
    else head in
  (head, tail).

(** [glob.has_magic(s)]: [s] has one of the characters [*], [?] and [[]. *)
Definition has_magic (s : string) : bool :=
  Py.contains "*" s || Py.contains "?" s || Py.contains "[" s.

(** [glob._glob1(dirname, pattern, ...)]: the entries of one directory
    that match, in listing order; entries starting with a dot are left out
    unless the pattern starts with one. *)
Definition glob1 (fs : filesystem) (dirname pattern : string) : list string :=
  let names := listdir fs dirname in
  let names := if ishidden pattern then names
               else List.filter (fun x => negb (ishidden x)) names in
  List.filter (fun x => fnmatch x pattern) names.

(** [glob.glob(os.path.join(directory, pattern))] for a [pattern] that has
    a wildcard and no [/], as both patterns of [find_xbrl_files] do, so
    that the path name always has a wildcard and [_glob1] is what runs in
    each directory.  The path name is split into its directory part and
    the pattern; with no directory part the entries of the current
    directory that match are returned as they are; otherwise the directory
    part is searched, or the directories it stands for when it has a
    wildcard itself, and every match is joined to the directory it was
    found in. *)
Definition glob (fs : filesystem) (directory pattern : string) : list string :=
  let pathname := path_join directory pattern in
  let '(dirname, basename) := split pathname in
  if String.eqb dirname "" then glob1 fs dirname basename
  else
    let dirs :=
      if negb (String.eqb dirname pathname) && has_magic dirname
      then iglob_dirs fs dirname
      else [dirname] in
    flat_map (fun dirname => map (path_join dirname) (glob1 fs dirname basename))
             dirs.

End Glob.

(** ** [find_xbrl_files] *)

Definition non_instance_markers : list string := ["_lab"; "label"; "dim_"; "def"].

Definition find_xbrl_files (fs : filesystem) (directory : string) : list string :=
  let all_files :=
    Glob.glob fs directory "*.xbrl" ++ Glob.glob fs directory "*[0-9].xml" in
  List.filter
    (fun f => negb (existsb (fun x => Py.contains x (Py.lower (Glob.basename f)))
                            non_instance_markers))
    all_files.

Definition dir_ex : filesystem := {|
  listdir := fun _ =>
    ["report1.xbrl"; "report_label.xml"; "taxonomy_def.xml"; "data5.xml";
     "label2.xml"; ".cache3.xml"; "notes.xml"];
  iglob_dirs := fun _ => [];
  libxml := fun _ => Unreadable
|}.

Example find_xbrl_files_ex :
  find_xbrl_files dir_ex "filings" = ["filings/report1.xbrl"; "filings/data5.xml"].
Proof. reflexivity. Qed.

(** ** [parse_xbrl_file]: contexts *)

Definition text_of (n : node) : option string :=
  match n with
  | Element _ _ txt _ => txt
  | Special _ => None
  end.

(** [isinstance(n.tag, str)] and [get_local_name(n.tag) == name] *)
Definition local_name_is (name : string) (n : node) : bool :=
  match n with
  | Element tag _ _ _ => bool_decide (get_local_name (StrTag tag) = Some name)
  | Special _ => false
  end.

(** [e.text.strip() if e is not None and e.text else None] *)
Definition stripped_text (e : option node) : option string :=
  match e ≫= text_of with
  | Some (String _ _ as txt) => Some (Py.strip txt)
  | _ => None
  end.

(** The loop over the children of [period] that keeps the last [startDate]
    and the last [endDate]. *)
Definition scan_dates (p_children : list node) : option node * option node :=
  fold_left
    (fun '(start_date, end_date) p_child =>
       if local_name_is "startDate" p_child then (Some p_child, end_date)
       else if local_name_is "endDate" p_child then (start_date, Some p_child)
       else (start_date, end_date))
    p_children (None, None).

(** The loop over the children of [context] that looks into every [entity]
    child for its first [segment] child. *)
Definition find_segment (children : list node) : option node :=
  fold_left
    (fun segment child =>
       if local_name_is "entity" child then
         match List.find (local_name_is "segment") (children_of child) with
         | Some e_child => Some e_child
         | None => segment
         end
       else segment)
    children None.

(** The body of the loop over the children of [segment]. *)
Definition dimension_step (dimensions : gmap (option string) string) (dim : node)
  : result (gmap (option string) string) :=
  match dim with
  | Special _ => Ok dimensions
  | Element tag attrib txt _ =>
      match get_local_name (StrTag tag) with
      | None => Raise TypeError
      | Some dim_name =>
          if Py.contains "explicitMember" dim_name then
            match attrib !! "dimension" with
            | Some (String _ _ as dimension) =>
                let dimension_name := get_local_name (StrTag dimension) in
                match stripped_text (Some dim) with
                | Some (String _ _ as member_value) =>
                    Ok (<[dimension_name := member_value]> dimensions)
                | _ => Ok dimensions
                end
            | _ => Ok dimensions
            end
          else Ok dimensions
      end
  end.

(** The period keys of [context_data]. *)
Definition with_period (children : list node) (context_data : pydict) : pydict :=
  match List.find (local_name_is "period") children with
  | Some period =>
      match List.find (local_name_is "instant") (children_of period) with
      | Some instant =>
          <["instant" := of_opt (stripped_text (Some instant))]>
            (<["period_type" := PyStr "instant"]> context_data)
      | None =>
          let '(start_date, end_date) := scan_dates (children_of period) in
          <["end_date" := of_opt (stripped_text end_date)]>
            (<["start_date" := of_opt (stripped_text start_date)]>
               (<["period_type" := PyStr "duration"]> context_data))
      end
  | None => context_data
  end.

(** [context_data] for a context element with the given children. *)
Definition context_data_of (children : list node) : result pydict :=
  let context_data : pydict :=
    <["dimensions" := PyDict ∅]> {[ "period_type" := PyNone ]} in
  let context_data := with_period children context_data in
  let dims :=
    match find_segment children with
    | Some segment => children_of segment
    | None => []
    end in
  dimensions ← for_each dimension_step dims ∅;
  mret (<["dimensions" := PyDict dimensions]> context_data).

(** The body of the first loop over [root.iter()]. *)
Definition context_step (contexts : gmap string pydict) (elem : node)
  : result (gmap string pydict) :=
  match elem with
  | Special _ => Ok contexts
  | Element tag attrib _ children =>
      if bool_decide (get_local_name (StrTag tag) = Some "context") then
        match attrib !! "id" with
        | Some (String _ _ as context_id) =>
            context_data ← context_data_of children;
            mret (<[context_id := context_data]> contexts)
        | _ => Ok contexts
        end
      else Ok contexts
  end.

Definition extract_contexts (d : document) : result (gmap string pydict) :=
  for_each context_step (iter (root d)) ∅.

(** ** [parse_xbrl_file]: facts *)

Definition skip_names : list string :=
  ["context"; "unit"; "schemaRef"; "roleRef"; "arcroleRef"].

(** The prefix the loop over [root.nsmap.items()] stops at. *)
Definition find_prefix (ns_map : list (option string * string)) (ns : string)
  : option string :=
  match List.find (fun '(p, u) => String.eqb u ns) ns_map with
  | Some (p, _) => p
  | None => None
  end.

(** [local_name] and [prefixed_name] of an element tag. *)
Definition resolve_names (ns_map : list (option string * string)) (tag : string)
  : string * string :=
  if Py.contains "}" tag then
    let '(ns, rest) := Py.split1 "}" tag in
    let local_name := default "" rest in
    let ns := Py.strip_char "{" ns in
    match find_prefix ns_map ns with
    | Some (String _ _ as prefix) => (local_name, prefix +:+ ":" +:+ local_name)
    | _ => (local_name, local_name)
    end
  else (tag, tag).

(** The fact record: the dictionary literal, the period keys chosen by
    [period_type], and the dimensions. *)
Definition make_fact (local_name prefixed_name value : string)
    (unit_ref : option string) (context_ref : string)
    (context : pydict) (period_type : pyval) : pydict :=
  let fact : pydict :=
    <["period_type" := period_type]>
    (<["context_id" := PyStr context_ref]>
    (<["unit" := of_opt unit_ref]>
    (<["value" := PyStr value]>
    (<["prefixed_concept" := PyStr prefixed_name]>
    {[ "concept" := PyStr local_name ]})))) in
  let fact :=
    if bool_decide (period_type = PyStr "instant") then
      <["date" := dict_get context "instant"]> fact
    else
      <["end_date" := dict_get context "end_date"]>
        (<["start_date" := dict_get context "start_date"]> fact) in
  <["dimensions" := default (PyDict ∅) (context !! "dimensions")]> fact.

(** The body of the second loop over [root.iter()]. *)
Definition fact_step (ns_map : list (option string * string))
    (contexts : gmap string pydict) (facts : list pydict) (elem : node)
  : result (list pydict) :=
  match elem with
  | Special _ => Ok facts
  | Element tag attrib txt _ =>
      match attrib !! "contextRef" with
      | Some (String _ _ as context_ref) =>
          if bool_decide (is_Some (contexts !! context_ref)) then
            let '(local_name, prefixed_name) := resolve_names ns_map tag in
            if bool_decide (local_name ∈ skip_names) then Ok facts
            else
              match txt with
              | None => Ok facts
              | Some value =>
                  let value := Py.strip value in
                  let unit_ref := attrib !! "unitRef" in
                  context ← getitem contexts context_ref;
                  period_type ← getitem context "period_type";
                  Ok (facts ++ [make_fact local_name prefixed_name value
                                  unit_ref context_ref context period_type])
              end
          else Ok facts
      | _ => Ok facts
      end
  end.

Definition extract_facts (d : document) : result (list pydict) :=
  contexts ← extract_contexts d;
  for_each (fact_step (nsmap d) contexts) (iter (root d)) [].

(** The body of the [try] block. *)
Definition parse_body (fs : filesystem) (file_path : string)
  : result (list pydict) :=
  match etree_parse fs file_path with
  | Raises e => Raise e
  | Tree None => Raise AttributeError
  | Tree (Some d) => extract_facts d
  end.

Definition parse_xbrl_file (fs : filesystem) (file_path : string) : list pydict :=
  match parse_body fs file_path with
  | Ok facts => facts
  | Raise _ => []
  end.

(** ** [XBRLParser.parse_directory] *)

Definition parse_directory (fs : filesystem) (directory : string) : list pydict :=
  match find_xbrl_files fs directory with
  | [] => []
  | xbrl_files =>
      fold_left (fun all_facts file_path =>
                   all_facts ++ parse_xbrl_file fs file_path)
                xbrl_files []
  end.

(** ** The loops as folds

    Both loops over [root.iter()] and the loop over the children of
    [segment] store a value under a key for some of the items they visit.
    [store entry] is one round of such a loop. *)

Definition store {K} `{Countable K} {V X : Type} (entry : X -> option (K * V))
    (m : gmap K V) (x : X) : gmap K V :=
  match entry x with
  | Some (k, v) => <[k := v]> m
  | None => m
  end.

(** What a child of [segment] records: the dimension name and the member
    ([dimension_step_store] below: one round of the loop is
    [store member_of]). *)
Definition member_of (dim : node) : option (option string * string) :=
  match dim with
  | Element tag attrib _ _ =>
      match get_local_name (StrTag tag), attrib !! "dimension",
            stripped_text (Some dim) with
      | Some dim_name, Some (String _ _ as dimension),
        Some (String _ _ as member_value) =>
          if Py.contains "explicitMember" dim_name
          then Some (get_local_name (StrTag dimension), member_value)
          else None
      | _, _, _ => None
      end
  | Special _ => None
  end.

Definition segment_children (children : list node) : list node :=
  match find_segment children with
  | Some segment => children_of segment
  | None => []
  end.

Definition dimensions_of (children : list node) : gmap (option string) string :=
  fold_left (store member_of) (segment_children children) ∅.

Definition context_record (children : list node) : pydict :=
  <["dimensions" := PyDict (dimensions_of children)]>
    (with_period children
       (<["dimensions" := PyDict ∅]> {[ "period_type" := PyNone ]})).

(** What an element stores in the context map: its id and its record
    ([context_step_store] below: one round of the loop is
    [store context_entry]). *)
Definition context_entry (elem : node) : option (string * pydict) :=
  match elem with
  | Element tag attrib _ children =>
      if bool_decide (get_local_name (StrTag tag) = Some "context") then
        match attrib !! "id" with
        | Some (String _ _ as context_id) =>
            Some (context_id, context_record children)
        | _ => None
        end
      else None
  | Special _ => None
  end.

Definition contexts_of (d : document) : gmap string pydict :=
  fold_left (store context_entry) (iter (root d)) ∅.

(** The fact an element contributes to the result, when it contributes
    one, given the context map ([fact_step_ok] below: one round of the loop
    appends it). *)
Definition fact_of (ns_map : list (option string * string))
    (contexts : gmap string pydict) (elem : node) : option pydict :=
  match elem with
  | Element tag attrib (Some value) _ =>
      match attrib !! "contextRef" with
      | Some (String _ _ as context_ref) =>
          context ← contexts !! context_ref;
          let '(local_name, prefixed_name) := resolve_names ns_map tag in
          if bool_decide (local_name ∈ skip_names) then None
          else Some (make_fact local_name prefixed_name (Py.strip value)
                       (attrib !! "unitRef") context_ref context
                       (dict_get context "period_type"))
      | _ => None
      end
  | _ => None
  end.

(** The id under which the first loop stores an element, when it stores
    it: the [id] of a [context] element, when it is not empty. *)
Definition context_id_of (elem : node) : option string :=
  fst <$> context_entry elem.

(** * Properties *)

(** ** Strings *)

Module PyFacts.
Import Py.

Lemma append_cons (x : ascii) (a b : string) :
  String x a +:+ b = String x (a +:+ b).
Proof. reflexivity. Qed.

Lemma append_nil_l (b : string) : "" +:+ b = b.
Proof. reflexivity. Qed.

Lemma append_assoc (a b c : string) : (a +:+ b) +:+ c = a +:+ (b +:+ c).
Proof.
  induction a as [|x a IH]; [done|]. by rewrite !append_cons, IH.
Qed.

Lemma append_nil_r (a : string) : a +:+ "" = a.
Proof. induction a as [|x a IH]; [done|]. by rewrite append_cons, IH. Qed.

Lemma prefix_nil (s : string) : String.prefix "" s = true.
Proof. by destruct s. Qed.

(** [contains] for a one-character needle. *)
Lemma contains_char_cons (c a : ascii) (r : string) :
  contains (String c "") (String a r)
  = Ascii.eqb c a || contains (String c "") r.
Proof.
  cbn [contains String.prefix]. rewrite prefix_nil.
  destruct (ascii_dec c a) as [->|Hne].
  - by rewrite Ascii.eqb_refl.
  - by apply Ascii.eqb_neq in Hne as ->.
Qed.

Lemma contains_char_nil (c : ascii) : contains (String c "") "" = false.
Proof. reflexivity. Qed.

Lemma contains_char_app (c : ascii) (a b : string) :
  contains (String c "") (a +:+ b)
  = contains (String c "") a || contains (String c "") b.
Proof.
  induction a as [|x a IH].
  - by rewrite contains_char_nil.
  - rewrite append_cons, !contains_char_cons, IH. by rewrite orb_assoc.
Qed.

Lemma split1_absent (c : ascii) (s : string) :
  contains (String c "") s = false -> split1 c s = (s, None).
Proof.
  induction s as [|a s IH]; [done|].
  rewrite contains_char_cons. intros [Hca Hs]%orb_false_iff.
  cbn [split1]. rewrite Ascii.eqb_sym, Hca. by rewrite (IH Hs).
Qed.

Lemma split1_first (c : ascii) (pre post : string) :
  contains (String c "") pre = false ->
  split1 c (pre +:+ String c post) = (pre, Some post).
Proof.
  induction pre as [|a pre IH]; intros Hpre.
  - rewrite append_nil_l. cbn [split1]. by rewrite Ascii.eqb_refl.
  - rewrite contains_char_cons in Hpre.
    apply orb_false_iff in Hpre as [Hca Hpre].
    rewrite append_cons.
    cbn [split1]. rewrite Ascii.eqb_sym, Hca. by rewrite (IH Hpre).
Qed.

(** Every string with the character splits at its first occurrence. *)
Lemma contains_char_split (c : ascii) (s : string) :
  contains (String c "") s = true ->
  exists pre post, s = pre +:+ String c post
                   /\ contains (String c "") pre = false.
Proof.
  induction s as [|a s IH]; [done|].
  rewrite contains_char_cons. destruct (Ascii.eqb_spec c a) as [->|Hne].
  - intros _. by exists "", s.
  - cbn [orb]. intros (pre & post & -> & Hpre)%IH.
    exists (String a pre), post. split; [done|].
    rewrite contains_char_cons, Hpre.
    by apply Ascii.eqb_neq in Hne as ->.
Qed.

(** [lstrip] keeps a suffix, and that suffix does not start with a
    stripped character. *)
Lemma lstrip_by_suffix (p : ascii -> bool) (s : string) :
  exists pre, s = pre +:+ lstrip_by p s.
Proof.
  induction s as [|a s [pre IH]]; [by exists ""|].
  cbn [lstrip_by]. destruct (p a).
  - exists (String a pre). by rewrite append_cons, <- IH.
  - by exists "".
Qed.

Lemma lstrip_by_head (p : ascii -> bool) (s : string) (c : ascii) (r : string) :
  lstrip_by p s = String c r -> p c = false.
Proof.
  induction s as [|a s IH]; [done|].
  cbn [lstrip_by]. destruct (p a) eqn:Hpa; [done|].
  by intros [= <- _].
Qed.

Lemma rstrip_by_last (p : ascii -> bool) (s r : string) (c : ascii) :
  rstrip_by p s = r +:+ String c "" -> p c = false.
Proof.
  revert r. induction s as [|a s IH]; intros r.
  - by destruct r.
  - cbn [rstrip_by]. destruct (rstrip_by p s) as [|b t] eqn:Hs.
    + destruct (p a) eqn:Hpa; destruct r as [|x [|y r]]; try done.
      by intros [= <-].
    + destruct r as [|x r]; [done|].
      rewrite append_cons. intros [= _ Hbt]. by apply (IH r).
Qed.

Lemma strip_by_ends (p : ascii -> bool) (s : string) :
  (forall c r, lstrip_by p (rstrip_by p s) = String c r -> p c = false)
  /\ (forall r c, lstrip_by p (rstrip_by p s) = r +:+ String c "" -> p c = false).
Proof.
  split.
  - intros c r. apply lstrip_by_head.
  - intros r c Hr.
    destruct (lstrip_by_suffix p (rstrip_by p s)) as [pre Hpre].
    rewrite Hr, <- append_assoc in Hpre. by apply rstrip_by_last in Hpre.
Qed.

Lemma strip_trimmed (s : string) : trimmed (strip s).
Proof. apply strip_by_ends. Qed.

End PyFacts.

(** ** [get_local_name] *)

(** On a [str] the result is never the sentinel. *)
Lemma get_local_name_str_is_Some (s : string) :
  exists name, get_local_name (StrTag s) = Some name.
Proof. cbn. eauto. Qed.

(** C2 (as stated) fails: on a tag with two closing delimiters the result
    is what follows the first one, not what follows the last one; and an
    identifier that is not a string and whose text form carries neither
    marker comes back as that text, not as the sentinel. *)
Lemma get_local_name_after_last_fails :
  Py.contains "}" "c" = false
  /\ get_local_name (StrTag ("{a}b" +:+ "}" +:+ "c")) = Some "b}c"
  /\ get_local_name (StrTag ("{a}b" +:+ "}" +:+ "c")) <> Some "c"
  /\ get_local_name (ObjTag "42") = Some "42".
Proof. repeat split; done. Qed.

(** C2 (amended): on a string that contains [}] the result is everything
    after the first [}]; on a string without [}] it is the string itself;
    on an identifier that is not a string it is the sentinel [None] when the
    text form of the identifier contains [<cyfunction] or
    [<cython_function_or_method], and that text form otherwise.  The
    function is total: there is no input on which it raises. *)
Theorem get_local_name_first_delimiter :
  (forall pre post,
      Py.contains "}" pre = false ->
      get_local_name (StrTag (pre +:+ "}" +:+ post)) = Some post)
  /\ (forall tag,
         Py.contains "}" tag = false ->
         get_local_name (StrTag tag) = Some tag)
  /\ (forall tag_str,
         get_local_name (ObjTag tag_str)
         = if Py.contains "<cyfunction" tag_str
              || Py.contains "<cython_function_or_method" tag_str
           then None else Some tag_str).
Proof.
  split; [|split].
  - intros pre post Hpre.
    change ("}" +:+ post) with (String "}" post). cbn [get_local_name].
    rewrite PyFacts.contains_char_app, PyFacts.contains_char_cons.
    rewrite Ascii.eqb_refl, orb_true_r.
    by rewrite (PyFacts.split1_first _ _ _ Hpre).
  - intros tag Htag. cbn [get_local_name]. by rewrite Htag.
  - done.
Qed.

Lemma get_local_name_first_delimiter_witness :
  get_local_name (StrTag ("{http://fasb.org/us-gaap/2023" +:+ "}" +:+ "Assets"))
  = Some "Assets"
  /\ get_local_name (StrTag "Assets") = Some "Assets"
  /\ get_local_name (ObjTag "<cyfunction Comment at 0x7f3a5c0b1a00>") = None.
Proof.
  destruct get_local_name_first_delimiter as (Hfirst & Hplain & Hobj).
  split; [|split].
  - apply Hfirst. reflexivity.
  - apply Hplain. reflexivity.
  - rewrite Hobj. reflexivity.
Defined.

(** ** Loops *)

Section loops.
Context {S X : Type}.
Implicit Types (body : S -> X -> result S) (step : S -> X -> S).

(** A loop whose body never raises is a left fold. *)
Lemma for_each_fold body step (xs : list X) (s : S) :
  (forall s x, x ∈ xs -> body s x = Ok (step s x)) ->
  for_each body xs s = Ok (fold_left step xs s).
Proof.
  revert s. induction xs as [|x xs IH]; intros s Hbody; [done|].
  cbn [for_each fold_left]. rewrite Hbody by left. cbn.
  apply IH. intros s' y Hy. apply Hbody. by right.
Qed.

(** The same, when the body is known not to raise only on the states the
    loop can reach. *)
Lemma for_each_fold_inv (I : S -> Prop) body step (xs : list X) (s : S) :
  I s ->
  (forall s x, I s -> x ∈ xs -> body s x = Ok (step s x) /\ I (step s x)) ->
  for_each body xs s = Ok (fold_left step xs s) /\ I (fold_left step xs s).
Proof.
  revert s. induction xs as [|x xs IH]; intros s Hs Hbody; [done|].
  cbn [for_each fold_left].
  destruct (Hbody s x Hs) as [-> Hs']; [left|]. cbn.
  apply IH; [done|]. intros s' y Hs'' Hy. apply Hbody; [done | by right].
Qed.
End loops.

(** A fold that stores a value under a key for some of the items: the last
    item storing under a key decides what the key holds. *)
Section last_write_wins.
Context {K : Type} `{Countable K} {V X : Type}.
Variable entry : X -> option (K * V).
Local Abbreviation store := (store entry).

Lemma store_other (xs : list X) (m : gmap K V) (k : K) :
  (forall x, x ∈ xs -> fst <$> entry x <> Some k) ->
  fold_left store xs m !! k = m !! k.
Proof.
  revert m. induction xs as [|x xs IH]; intros m Hxs; [done|].
  cbn [fold_left]. rewrite IH by (intros y Hy; apply Hxs; by right).
  unfold store. specialize (Hxs x (list_elem_of_here _ _)).
  destruct (entry x) as [[k' v]|]; [|done].
  apply lookup_insert_ne. intros ->. by apply Hxs.
Qed.

Lemma store_last (xs1 xs2 : list X) (x : X) (m : gmap K V) (k : K) (v : V) :
  entry x = Some (k, v) ->
  (forall y, y ∈ xs2 -> fst <$> entry y <> Some k) ->
  fold_left store (xs1 ++ x :: xs2) m !! k = Some v.
Proof.
  intros Hx Hxs2. rewrite fold_left_app. cbn [fold_left].
  rewrite store_other by done. unfold store at 1. rewrite Hx.
  apply lookup_insert_eq.
Qed.

Lemma store_origin (xs : list X) (m : gmap K V) (k : K) (v : V) :
  fold_left store xs m !! k = Some v ->
  m !! k = Some v \/ exists x, x ∈ xs /\ entry x = Some (k, v).
Proof.
  revert m. induction xs as [|x xs IH]; intros m; [by left|].
  cbn [fold_left]. intros [Hm|(y & Hy & Hey)]%IH.
  - unfold store in Hm. destruct (entry x) as [[k' v']|] eqn:Hx; [|by left].
    destruct (decide (k' = k)) as [->|Hne].
    + rewrite lookup_insert_eq in Hm. injection Hm as ->.
      right. exists x. split; [left | done].
    + rewrite lookup_insert_ne in Hm by done. by left.
  - right. exists y. split; [by right | done].
Qed.

(** The item that decides a key: the last one storing under it. *)
Lemma store_last_exists (xs : list X) (k : K) (v : V) :
  fold_left store xs ∅ !! k = Some v ->
  exists xs1 x xs2,
    xs = xs1 ++ x :: xs2 /\ entry x = Some (k, v)
    /\ forall y, y ∈ xs2 -> fst <$> entry y <> Some k.
Proof.
  induction xs as [|x xs IH] using rev_ind; [done|].
  rewrite fold_left_app. cbn [fold_left]. unfold store at 1.
  destruct (entry x) as [[k' v']|] eqn:Hx.
  - destruct (decide (k' = k)) as [->|Hne].
    + rewrite lookup_insert_eq. intros [= ->].
      exists xs, x, []. split_and!; [done..|]. by intros y ?%elem_of_nil.
    + rewrite lookup_insert_ne by done.
      intros (xs1 & y & xs2 & -> & Hy & Hxs2)%IH.
      exists xs1, y, (xs2 ++ [x]). split_and!; [by rewrite <- app_assoc | done |].
      intros z [Hz| ->%list_elem_of_singleton]%elem_of_app; [by apply Hxs2|].
      rewrite Hx. cbn. congruence.
  - intros (xs1 & y & xs2 & -> & Hy & Hxs2)%IH.
    exists xs1, y, (xs2 ++ [x]). split_and!; [by rewrite <- app_assoc | done |].
    intros z [Hz| ->%list_elem_of_singleton]%elem_of_app; [by apply Hxs2|].
    by rewrite Hx.
Qed.
End last_write_wins.

(** ** The context loop as a fold *)

Lemma dimension_step_store dimensions dim :
  dimension_step dimensions dim = Ok (store member_of dimensions dim).
Proof.
  unfold store. destruct dim as [tag attrib txt children|repr]; [|done].
  cbn [dimension_step member_of].
  destruct (get_local_name_str_is_Some tag) as [dim_name ->].
  destruct (Py.contains "explicitMember" dim_name);
    destruct (attrib !! "dimension") as [[|? ?]|]; try done;
    by destruct (stripped_text _) as [[|? ?]|].
Qed.

Lemma context_data_of_ok children :
  context_data_of children = Ok (context_record children).
Proof.
  unfold context_data_of.
  rewrite (for_each_fold _ (store member_of))
    by (intros; apply dimension_step_store).
  done.
Qed.

Lemma context_step_store contexts elem :
  context_step contexts elem = Ok (store context_entry contexts elem).
Proof.
  unfold store. destruct elem as [tag attrib txt children|repr]; [|done].
  cbn [context_step context_entry]. case_bool_decide; [|done].
  destruct (attrib !! "id") as [[|? ?]|]; [done| |done].
  by rewrite context_data_of_ok.
Qed.

Lemma extract_contexts_ok d : extract_contexts d = Ok (contexts_of d).
Proof.
  apply for_each_fold. intros. apply context_step_store.
Qed.

(** Every record has a [period_type]. *)
Lemma with_period_period_type children base :
  is_Some (base !! "period_type") ->
  is_Some (with_period children base !! "period_type").
Proof.
  intros Hbase. unfold with_period.
  destruct (List.find _ children) as [period|]; [|done].
  destruct (List.find _ (children_of period)) as [instant|].
  - rewrite lookup_insert_ne, lookup_insert_eq by done. eauto.
  - destruct (scan_dates _) as [start_date end_date].
    rewrite !lookup_insert_ne, lookup_insert_eq by done. eauto.
Qed.

Lemma context_record_period_type children :
  is_Some (context_record children !! "period_type").
Proof.
  unfold context_record. rewrite lookup_insert_ne by done.
  apply with_period_period_type.
  rewrite lookup_insert_ne, lookup_singleton_eq by done. eauto.
Qed.

Lemma context_entry_inv elem i cd :
  context_entry elem = Some (i, cd) ->
  exists tag attrib txt children,
    elem = Element tag attrib txt children
    /\ get_local_name (StrTag tag) = Some "context"
    /\ attrib !! "id" = Some i /\ i <> "" /\ cd = context_record children.
Proof.
  destruct elem as [tag attrib txt children|repr]; [|done].
  cbn [context_entry]. case_bool_decide as Htag; [|done].
  destruct (attrib !! "id") as [[|a r]|] eqn:Hid; [done| |done].
  intros [= <- <-]. by exists tag, attrib, txt, children.
Qed.

Lemma contexts_of_origin d i cd :
  contexts_of d !! i = Some cd ->
  exists elem, elem ∈ iter (root d) /\ context_entry elem = Some (i, cd).
Proof.
  intros [Hempty|Helem]%store_origin; [|done].
  by rewrite lookup_empty in Hempty.
Qed.

Lemma contexts_of_period_type d i cd :
  contexts_of d !! i = Some cd -> is_Some (cd !! "period_type").
Proof.
  intros (elem & _ & Helem)%contexts_of_origin.
  apply context_entry_inv in Helem as (?&?&?&children&_&_&_&_&->).
  apply context_record_period_type.
Qed.

(** ** The fact loop as a filter *)

Lemma fact_step_ok ns_map contexts facts elem :
  (forall i cd, contexts !! i = Some cd -> is_Some (cd !! "period_type")) ->
  fact_step ns_map contexts facts elem
  = Ok (facts ++ option_list (fact_of ns_map contexts elem)).
Proof.
  intros Hwf. destruct elem as [tag attrib txt children|repr];
    [|by rewrite app_nil_r].
  cbn [fact_step fact_of].
  destruct (resolve_names ns_map tag) as [l p].
  destruct (attrib !! "contextRef") as [[|a r]|];
    try (destruct txt; by rewrite app_nil_r).
  case_bool_decide as Hin.
  - destruct Hin as [cd Hcd]. unfold getitem. rewrite Hcd.
    destruct txt as [value|]; cbn;
      [|case_bool_decide; by rewrite app_nil_r].
    case_bool_decide; [by rewrite app_nil_r|].
    destruct (Hwf _ _ Hcd) as [pt Hpt]. unfold dict_get. by rewrite Hpt.
  - apply eq_None_not_Some in Hin. rewrite Hin.
    destruct txt; by rewrite app_nil_r.
Qed.

Lemma fold_left_option_list {A B} (f : A -> option B) (xs : list A) (acc : list B) :
  fold_left (fun acc x => acc ++ option_list (f x)) xs acc = acc ++ omap f xs.
Proof.
  revert acc. induction xs as [|x xs IH]; intros acc; cbn.
  - by rewrite app_nil_r.
  - rewrite IH, <- app_assoc. by destruct (f x).
Qed.

Lemma extract_facts_ok d :
  extract_facts d
  = Ok (omap (fact_of (nsmap d) (contexts_of d)) (iter (root d))).
Proof.
  unfold extract_facts. rewrite extract_contexts_ok. cbn.
  rewrite (for_each_fold _
    (fun acc x => acc ++ option_list (fact_of (nsmap d) (contexts_of d) x))).
  - by rewrite fold_left_option_list.
  - intros facts elem _. apply fact_step_ok, contexts_of_period_type.
Qed.

(** ** The fields of a fact *)

Ltac lookup_field :=
  repeat first
    [ rewrite lookup_insert_eq
    | rewrite lookup_insert_ne by done
    | rewrite lookup_singleton_eq
    | rewrite lookup_singleton_ne by done ].

Section make_fact_fields.
Variables (local_name prefixed_name value : string) (unit_ref : option string).
Variables (context_ref : string) (context : pydict) (period_type : pyval).
Let fact := make_fact local_name prefixed_name value unit_ref context_ref
                      context period_type.

Lemma make_fact_concept : fact !! "concept" = Some (PyStr local_name).
Proof. unfold fact, make_fact. case_bool_decide; by lookup_field. Qed.

Lemma make_fact_prefixed_concept :
  fact !! "prefixed_concept" = Some (PyStr prefixed_name).
Proof. unfold fact, make_fact. case_bool_decide; by lookup_field. Qed.

Lemma make_fact_value : fact !! "value" = Some (PyStr value).
Proof. unfold fact, make_fact. case_bool_decide; by lookup_field. Qed.

Lemma make_fact_unit : fact !! "unit" = Some (of_opt unit_ref).
Proof. unfold fact, make_fact. case_bool_decide; by lookup_field. Qed.

Lemma make_fact_context_id : fact !! "context_id" = Some (PyStr context_ref).
Proof. unfold fact, make_fact. case_bool_decide; by lookup_field. Qed.

Lemma make_fact_period_type : fact !! "period_type" = Some period_type.
Proof. unfold fact, make_fact. case_bool_decide; by lookup_field. Qed.

Lemma make_fact_dimensions :
  fact !! "dimensions" = Some (default (PyDict ∅) (context !! "dimensions")).
Proof. unfold fact, make_fact. by lookup_field. Qed.

Lemma make_fact_instant :
  period_type = PyStr "instant" ->
  fact !! "date" = Some (dict_get context "instant")
  /\ fact !! "start_date" = None /\ fact !! "end_date" = None.
Proof.
  intros ->. unfold fact, make_fact. rewrite bool_decide_eq_true_2 by done.
  split_and!; by lookup_field.
Qed.

Lemma make_fact_not_instant :
  period_type <> PyStr "instant" ->
  fact !! "date" = None
  /\ fact !! "start_date" = Some (dict_get context "start_date")
  /\ fact !! "end_date" = Some (dict_get context "end_date").
Proof.
  intros Hpt. unfold fact, make_fact. rewrite bool_decide_eq_false_2 by done.
  split_and!; by lookup_field.
Qed.
End make_fact_fields.

(** A fact comes from an element with text and a reference to a stored
    context, and is assembled from that element and that context. *)
Lemma fact_of_inv ns_map contexts elem f :
  fact_of ns_map contexts elem = Some f ->
  exists tag attrib value children i cd,
    elem = Element tag attrib (Some value) children
    /\ attrib !! "contextRef" = Some i /\ i <> ""
    /\ contexts !! i = Some cd
    /\ (fst (resolve_names ns_map tag) ∉ skip_names)
    /\ f = make_fact (fst (resolve_names ns_map tag)) (snd (resolve_names ns_map tag))
             (Py.strip value) (attrib !! "unitRef") i cd
             (dict_get cd "period_type").
Proof.
  destruct elem as [tag attrib [value|] children|repr]; cbn [fact_of];
    [|done..].
  destruct (attrib !! "contextRef") as [[|a r]|] eqn:Href; [done| |done].
  destruct (contexts !! String a r) as [cd|] eqn:Hcd; [|done]. cbn.
  destruct (resolve_names ns_map tag) as [l p] eqn:Hn.
  case_bool_decide; [done|].
  intros [= <-]. exists tag, attrib, value, children, (String a r), cd.
  rewrite Hn. by split_and!.
Qed.

Lemma fact_of_Some ns_map contexts tag attrib value children i cd :
  attrib !! "contextRef" = Some i -> i <> "" ->
  contexts !! i = Some cd ->
  (fst (resolve_names ns_map tag) ∉ skip_names) ->
  fact_of ns_map contexts (Element tag attrib (Some value) children)
  = Some (make_fact (fst (resolve_names ns_map tag)) (snd (resolve_names ns_map tag))
            (Py.strip value) (attrib !! "unitRef") i cd
            (dict_get cd "period_type")).
Proof.
  intros Href Hi Hcd Hskip. cbn [fact_of]. rewrite Href.
  destruct i as [|a r]; [done|]. rewrite Hcd. cbn.
  destruct (resolve_names ns_map tag) as [l p]. by rewrite bool_decide_eq_false_2.
Qed.

Lemma elem_of_facts d f :
  f ∈ omap (fact_of (nsmap d) (contexts_of d)) (iter (root d)) ->
  exists elem, elem ∈ iter (root d)
               /\ fact_of (nsmap d) (contexts_of d) elem = Some f.
Proof. by intros ?%list_elem_of_omap. Qed.

(** ** [parse_xbrl_file] on a parsed tree *)

Lemma parse_xbrl_file_tree fs file_path d :
  etree_parse fs file_path = Tree (Some d) ->
  parse_xbrl_file fs file_path
  = omap (fact_of (nsmap d) (contexts_of d)) (iter (root d)).
Proof.
  intros Hd. unfold parse_xbrl_file, parse_body.
  by rewrite Hd, extract_facts_ok.
Qed.

Lemma elem_of_parse_xbrl_file fs file_path f :
  f ∈ parse_xbrl_file fs file_path ->
  exists d elem,
    etree_parse fs file_path = Tree (Some d)
    /\ elem ∈ iter (root d)
    /\ fact_of (nsmap d) (contexts_of d) elem = Some f.
Proof.
  unfold parse_xbrl_file, parse_body.
  destruct (etree_parse fs file_path) as [e|[d|]] eqn:Hd;
    [by intros ?%elem_of_nil| |by intros ?%elem_of_nil].
  rewrite extract_facts_ok. intros (elem & ? & ?)%elem_of_facts. eauto.
Qed.

(** A file system with one document behind every path. *)
Definition always (d : document) : filesystem := {|
  listdir := fun _ => [];
  iglob_dirs := fun _ => [];
  libxml := fun _ => Document true (Some d)
|}.

Definition xbrli (name : string) : string :=
  "{http://www.xbrl.org/2003/instance}" +:+ name.

Definition us_gaap (name : string) : string :=
  "{http://fasb.org/us-gaap/2023}" +:+ name.

Definition ns_ex : list (option string * string) :=
  [ (None, "http://www.xbrl.org/2003/instance");
    (Some "us-gaap", "http://fasb.org/us-gaap/2023") ].

Definition instant_context (id date : string) : node :=
  Element (xbrli "context") {[ "id" := id ]} None
    [ Element (xbrli "period") ∅ None
        [ Element (xbrli "instant") ∅ (Some date) [] ] ].

(** ** C1: the value of a fact *)

(** [<us-gaap:Assets contextRef="C1"> </us-gaap:Assets>]: the text is one
    space. *)
Definition doc_blank_value : document := {|
  root :=
    Element (xbrli "xbrl") ∅ None
      [ instant_context "C1" "2023-12-31";
        Element (us_gaap "Assets") {[ "contextRef" := "C1" ]} (Some " ") [] ];
  nsmap := ns_ex
|}.

Definition fact_blank_value : pydict :=
  list_to_map
    [ ("concept", PyStr "Assets"); ("prefixed_concept", PyStr "us-gaap:Assets");
      ("value", PyStr ""); ("unit", PyNone); ("context_id", PyStr "C1");
      ("period_type", PyStr "instant"); ("date", PyStr "2023-12-31");
      ("dimensions", PyDict ∅) ].

(** C1 (as stated) fails: an element whose text is white space only is
    not skipped; its fact is emitted with the empty string as value. *)
Lemma blank_text_fact_is_emitted :
  Py.strip " " = ""
  /\ parse_xbrl_file (always doc_blank_value) "report1.xbrl" = [fact_blank_value]
  /\ fact_blank_value !! "value" = Some (PyStr "").
Proof. split_and!; reflexivity. Qed.

(** C1 (amended): the value field of every fact emitted by
    [parse_xbrl_file] is a string, never null, with no white space at
    either end (it may be empty), and an element whose text is absent is
    skipped: the loop body leaves the fact list as it was. *)
Theorem fact_value_is_trimmed_text (fs : filesystem) (file_path : string) :
  (forall f, f ∈ parse_xbrl_file fs file_path ->
             exists value, f !! "value" = Some (PyStr value)
                           /\ Py.trimmed value)
  /\ (forall ns_map contexts facts tag attrib children,
         fact_step ns_map contexts facts (Element tag attrib None children)
         = Ok facts).
Proof.
  split.
  - intros f (d & elem & _ & _ & Hf)%elem_of_parse_xbrl_file.
    apply fact_of_inv in Hf as (tag & attrib & value & ? & i & cd & _ & _ & _ & _ & _ & ->).
    exists (Py.strip value). split; [apply make_fact_value|].
    apply PyFacts.strip_trimmed.
  - intros ns_map contexts facts tag attrib children. cbn [fact_step].
    destruct (attrib !! "contextRef") as [[|a r]|]; [done| |done].
    case_bool_decide; [|done].
    destruct (resolve_names ns_map tag). by case_bool_decide.
Qed.

(** The document of C5: one context and one fact. *)
Definition doc_ex : document := {|
  root :=
    Element (xbrli "xbrl") ∅ None
      [ instant_context "C1" "2023-12-31";
        Element (us_gaap "Assets")
          (<["unitRef" := "USD"]> {[ "contextRef" := "C1" ]}) (Some "1000") [] ];
  nsmap := ns_ex
|}.

Definition fact_ex : pydict :=
  list_to_map
    [ ("concept", PyStr "Assets"); ("prefixed_concept", PyStr "us-gaap:Assets");
      ("value", PyStr "1000"); ("unit", PyStr "USD"); ("context_id", PyStr "C1");
      ("period_type", PyStr "instant"); ("date", PyStr "2023-12-31");
      ("dimensions", PyDict ∅) ].

Lemma parse_doc_ex file_path :
  parse_xbrl_file (always doc_ex) file_path = [fact_ex].
Proof. reflexivity. Qed.

Lemma fact_value_is_trimmed_text_witness :
  exists value, fact_ex !! "value" = Some (PyStr value) /\ Py.trimmed value.
Proof.
  apply (proj1 (fact_value_is_trimmed_text (always doc_ex) "report1.xbrl")).
  rewrite parse_doc_ex. apply list_elem_of_here.
Defined.

(** ** C3: the context of a fact *)

(** C3: every fact emitted for a document names, in [context_id], a key of
    the context map built from that same document; an element with no
    [contextRef] attribute, or whose [contextRef] is not a key of the map,
    leaves the fact list as it was, and the loop body returns normally. *)
Theorem fact_context_id_in_contexts (fs : filesystem) (file_path : string)
    (d : document) :
  etree_parse fs file_path = Tree (Some d) ->
  exists contexts,
    extract_contexts d = Ok contexts
    /\ (forall f, f ∈ parse_xbrl_file fs file_path ->
                  exists i, f !! "context_id" = Some (PyStr i)
                            /\ is_Some (contexts !! i))
    /\ (forall facts tag attrib txt children,
           attrib !! "contextRef" = None
           \/ (exists ref, attrib !! "contextRef" = Some ref
                           /\ contexts !! ref = None) ->
           fact_step (nsmap d) contexts facts (Element tag attrib txt children)
           = Ok facts).
Proof.
  intros Hd. exists (contexts_of d). split; [apply extract_contexts_ok|]. split.
  - intros f (d' & elem & Hd' & _ & Hf)%elem_of_parse_xbrl_file.
    rewrite Hd in Hd'. injection Hd' as <-.
    apply fact_of_inv in Hf as (tag & attrib & value & ? & i & cd & _ & _ & _ & Hcd & _ & ->).
    exists i. split; [apply make_fact_context_id | eauto].
  - intros facts tag attrib txt children Href. cbn [fact_step].
    destruct Href as [-> | (ref & -> & Hnone)]; [done|].
    destruct ref as [|a r]; [done|].
    rewrite bool_decide_eq_false_2; [done|].
    rewrite Hnone. by intros [? ?].
Qed.

Definition doc_dangling : document := {|
  root :=
    Element (xbrli "xbrl") ∅ None
      [ instant_context "C1" "2023-12-31";
        Element (us_gaap "Assets") {[ "contextRef" := "C9" ]} (Some "1000") [];
        Element (us_gaap "Cash") ∅ (Some "7") [];
        Element (us_gaap "Liabilities") {[ "contextRef" := "C1" ]} (Some "400") [] ];
  nsmap := ns_ex
|}.

Lemma fact_context_id_in_contexts_witness :
  exists contexts,
    extract_contexts doc_dangling = Ok contexts
    /\ (forall f, f ∈ parse_xbrl_file (always doc_dangling) "report1.xbrl" ->
                  exists i, f !! "context_id" = Some (PyStr i)
                            /\ is_Some (contexts !! i))
    /\ fact_step (nsmap doc_dangling) contexts []
         (Element (us_gaap "Assets") {[ "contextRef" := "C9" ]} (Some "1000") [])
       = Ok [].
Proof.
  destruct (fact_context_id_in_contexts (always doc_dangling) "report1.xbrl"
              doc_dangling eq_refl) as (contexts & Hctx & Hfacts & Hskip).
  exists contexts. split_and!; [done..|].
  apply Hskip. right. exists "C9". split; [reflexivity|].
  rewrite extract_contexts_ok in Hctx. injection Hctx as <-. reflexivity.
Defined.

(** ** C4: a document that fails to parse *)

Lemma parse_directory_concat fs directory :
  parse_directory fs directory
  = List.concat (map (parse_xbrl_file fs) (find_xbrl_files fs directory)).
Proof.
  unfold parse_directory.
  assert (Hfold : forall files acc,
             fold_left (fun all_facts file_path =>
                          all_facts ++ parse_xbrl_file fs file_path) files acc
             = acc ++ List.concat (map (parse_xbrl_file fs) files)).
  { induction files as [|file files IH]; intros acc; cbn.
    - by rewrite app_nil_r.
    - by rewrite IH, app_assoc. }
  destruct (find_xbrl_files fs directory) as [|file files]; [done|].
  apply (Hfold (file :: files) []).
Qed.

(** What the recovering parser keeps of a file that ends in the middle of
    its second fact: the root, the context and the first fact; the root
    and the second fact are never closed in the text. *)
Definition doc_truncated : document := {|
  root :=
    Element (xbrli "xbrl") ∅ None
      [ instant_context "C1" "2023-12-31";
        Element (us_gaap "Liabilities")
          (<["unitRef" := "USD"]> {[ "contextRef" := "C1" ]}) (Some "400") [] ];
  nsmap := ns_ex
|}.

Definition fact_truncated : pydict :=
  list_to_map
    [ ("concept", PyStr "Liabilities");
      ("prefixed_concept", PyStr "us-gaap:Liabilities");
      ("value", PyStr "400"); ("unit", PyStr "USD"); ("context_id", PyStr "C1");
      ("period_type", PyStr "instant"); ("date", PyStr "2023-12-31");
      ("dimensions", PyDict ∅) ].

(** A directory with a well-formed document and a truncated one. *)
Definition fs_truncated : filesystem := {|
  listdir := fun _ => ["report1.xbrl"; "broken2.xbrl"];
  iglob_dirs := fun _ => [];
  libxml := fun file_path =>
    if String.eqb file_path "filings/report1.xbrl"
    then Document true (Some doc_ex)
    else if String.eqb file_path "filings/broken2.xbrl"
         then Document false (Some doc_truncated)
         else Unreadable
|}.

(** C4 (as stated) fails: the parser is built with [recover=True], so a
    document that is not well formed does not raise when libxml2 can build
    a tree from it; the directory holds one well-formed and one invalid
    document, and [parse_directory] returns the fact of the first and the
    fact recovered from the second. *)
Lemma recovered_document_contributes_facts :
  find_xbrl_files fs_truncated "filings"
  = ["filings/report1.xbrl"; "filings/broken2.xbrl"]
  /\ libxml fs_truncated "filings/report1.xbrl" = Document true (Some doc_ex)
  /\ libxml fs_truncated "filings/broken2.xbrl"
     = Document false (Some doc_truncated)
  /\ parse_xbrl_file fs_truncated "filings/report1.xbrl" = [fact_ex]
  /\ parse_directory fs_truncated "filings" = [fact_ex; fact_truncated].
Proof. split_and!; reflexivity. Qed.

(** C4 (amended): [parse_xbrl_file] returns the empty list for a file that
    cannot be read, for a text that gives no document and for a document
    without a root, which are the cases in which the [try] block raises;
    for every other file, well formed or not, it returns the facts of the
    tree the parser built.  When file discovery finds two documents, in
    either order, one well formed and one of the first kind,
    [parse_directory] returns exactly the facts of the well-formed one; and
    when the second is not well formed but has a recovered tree with a
    root, [parse_directory] returns the facts of both, in discovery order.
    [parse_directory] has no exceptional result. *)
Theorem parse_failure_is_contained (fs : filesystem) :
  (forall file_path,
      match libxml fs file_path with
      | Unreadable | NoDocument | Document _ None =>
          (exists e, parse_body fs file_path = Raise e)
          /\ parse_xbrl_file fs file_path = []
      | Document _ (Some d) =>
          exists facts,
            extract_facts d = Ok facts /\ parse_xbrl_file fs file_path = facts
      end)
  /\ (forall directory good bad d,
         find_xbrl_files fs directory ≡ₚ [good; bad] ->
         libxml fs good = Document true (Some d) ->
         libxml fs bad = Unreadable \/ libxml fs bad = NoDocument
         \/ (exists well_formed, libxml fs bad = Document well_formed None) ->
         exists facts,
           extract_facts d = Ok facts
           /\ parse_directory fs directory = facts)
  /\ (forall directory good bad d recovered,
         libxml fs good = Document true (Some d) ->
         libxml fs bad = Document false (Some recovered) ->
         exists facts facts',
           extract_facts d = Ok facts
           /\ extract_facts recovered = Ok facts'
           /\ (find_xbrl_files fs directory = [good; bad] ->
               parse_directory fs directory = facts ++ facts')
           /\ (find_xbrl_files fs directory = [bad; good] ->
               parse_directory fs directory = facts' ++ facts)).
Proof.
  assert (Htree : forall file_path well_formed d,
             libxml fs file_path = Document well_formed (Some d) ->
             parse_xbrl_file fs file_path
             = omap (fact_of (nsmap d) (contexts_of d)) (iter (root d))).
  { intros file_path well_formed d Hd. apply parse_xbrl_file_tree.
    unfold etree_parse. by rewrite Hd. }
  assert (Hnone : forall file_path,
             libxml fs file_path = Unreadable \/ libxml fs file_path = NoDocument
             \/ (exists well_formed,
                    libxml fs file_path = Document well_formed None) ->
             (exists e, parse_body fs file_path = Raise e)
             /\ parse_xbrl_file fs file_path = []).
  { intros file_path Hbad. unfold parse_xbrl_file, parse_body, etree_parse.
    destruct Hbad as [->|[->|[well_formed ->]]]; cbn; eauto. }
  split; [|split].
  - intros file_path.
    destruct (libxml fs file_path) as [| |well_formed [d|]] eqn:Hfile.
    + apply Hnone. by left.
    + apply Hnone. right. by left.
    + eexists. split; [apply extract_facts_ok|]. by eapply Htree.
    + apply Hnone. right. right. by exists well_formed.
  - intros directory good bad d Hfiles Hgood Hbad.
    eexists. split; [apply extract_facts_ok|].
    rewrite parse_directory_concat.
    destruct (Hnone bad Hbad) as [_ Hb].
    pose proof (Htree good true d Hgood) as Hg.
    symmetry in Hfiles.
    apply Permutation_length_2_inv in Hfiles as [-> | ->]; cbn;
      rewrite Hb, Hg; by rewrite ?app_nil_r.
  - intros directory good bad d recovered Hgood Hbad.
    do 2 eexists. split; [apply extract_facts_ok|].
    split; [apply extract_facts_ok|].
    rewrite parse_directory_concat.
    split; intros ->; cbn;
      rewrite (Htree good true d Hgood), (Htree bad false recovered Hbad);
      by rewrite app_nil_r.
Qed.

Definition fs_good_bad : filesystem := {|
  listdir := fun _ => ["broken2.xbrl"; "report1.xbrl"];
  iglob_dirs := fun _ => [];
  libxml := fun file_path =>
    if String.eqb file_path "filings/report1.xbrl"
    then Document true (Some doc_ex) else NoDocument
|}.

Lemma parse_failure_is_contained_witness :
  parse_xbrl_file fs_good_bad "filings/broken2.xbrl" = []
  /\ parse_directory fs_good_bad "filings" = [fact_ex]
  /\ parse_directory fs_truncated "filings" = [fact_ex] ++ [fact_truncated].
Proof.
  split; [|split].
  - destruct (parse_failure_is_contained fs_good_bad) as (Hone & _ & _).
    exact (proj2 (Hone "filings/broken2.xbrl")).
  - destruct (parse_failure_is_contained fs_good_bad) as (_ & Hdir & _).
    destruct (Hdir "filings" "filings/report1.xbrl" "filings/broken2.xbrl"
                doc_ex) as (facts & Hfacts & ->).
    + apply perm_swap.
    + reflexivity.
    + right. by left.
    + rewrite extract_facts_ok in Hfacts. injection Hfacts as <-.
      reflexivity.
  - destruct (parse_failure_is_contained fs_truncated) as (_ & _ & Hboth).
    destruct (Hboth "filings" "filings/report1.xbrl" "filings/broken2.xbrl"
                doc_ex doc_truncated eq_refl eq_refl)
      as (facts & facts' & Hfacts & Hfacts' & Horder & _).
    rewrite (Horder eq_refl).
    rewrite extract_facts_ok in Hfacts, Hfacts'.
    injection Hfacts as <-. injection Hfacts' as <-. reflexivity.
Defined.

(** ** C5: one context, one fact *)

Definition assets_fact : node :=
  Element (us_gaap "Assets")
    (<["unitRef" := "USD"]> {[ "contextRef" := "C1" ]}) (Some "1000") [].

(** The documents of C5: a root element with any tag and text and no
    attribute, whose children are the context and the fact, in either
    order. *)
Definition one_fact_document (root_tag : string) (root_text : option string)
    (fact_first : bool) : document := {|
  root :=
    Element root_tag ∅ root_text
      (if fact_first
       then [ assets_fact; instant_context "C1" "2023-12-31" ]
       else [ instant_context "C1" "2023-12-31"; assets_fact ]);
  nsmap := ns_ex
|}.

Lemma context_entry_no_attrib tag txt children :
  context_entry (Element tag ∅ txt children) = None.
Proof. cbn [context_entry]. by case_bool_decide. Qed.

Lemma store_no_attrib contexts tag txt children :
  store context_entry contexts (Element tag ∅ txt children) = contexts.
Proof. unfold store. by rewrite context_entry_no_attrib. Qed.

Lemma fact_of_no_attrib ns_map contexts tag txt children :
  fact_of ns_map contexts (Element tag ∅ txt children) = None.
Proof. by destruct txt. Qed.

Lemma omap_cons_None {A B} (f : A -> option B) (x : A) (xs : list A) :
  f x = None -> omap f (x :: xs) = omap f xs.
Proof. intros Hx. cbn. by rewrite Hx. Qed.

(** C5: a document with exactly one context element (id [C1], instant
    [2023-12-31]) and one fact element (tag [us-gaap:Assets], [contextRef]
    [C1], text [1000], [unitRef] [USD]) yields exactly one fact, with
    concept [Assets], prefixed concept [us-gaap:Assets], value [1000], unit
    [USD], context id [C1], period type [instant], date [2023-12-31] and no
    dimensions. *)
Theorem one_context_one_fact (fs : filesystem) (file_path : string)
    (root_tag : string) (root_text : option string) (fact_first : bool) :
  etree_parse fs file_path
  = Tree (Some (one_fact_document root_tag root_text fact_first)) ->
  parse_xbrl_file fs file_path
  = [ list_to_map
        [ ("concept", PyStr "Assets");
          ("prefixed_concept", PyStr "us-gaap:Assets");
          ("value", PyStr "1000"); ("unit", PyStr "USD");
          ("context_id", PyStr "C1"); ("period_type", PyStr "instant");
          ("date", PyStr "2023-12-31"); ("dimensions", PyDict ∅) ] ].
Proof.
  intros Hd. rewrite (parse_xbrl_file_tree _ _ _ Hd).
  unfold contexts_of, one_fact_document. cbn [root nsmap iter fold_left].
  rewrite store_no_attrib, omap_cons_None by apply fact_of_no_attrib.
  by destruct fact_first.
Qed.

Lemma one_context_one_fact_witness :
  parse_xbrl_file (always doc_ex) "report1.xbrl" = [fact_ex].
Proof.
  exact (one_context_one_fact (always doc_ex) "report1.xbrl"
           (xbrli "xbrl") None false eq_refl).
Defined.

(** ** Facts copy the stored context *)

Lemma context_record_dimensions children :
  context_record children !! "dimensions"
  = Some (PyDict (dimensions_of children)).
Proof. unfold context_record. by rewrite lookup_insert_eq. Qed.

Lemma contexts_of_record d i cd :
  contexts_of d !! i = Some cd ->
  exists children, cd = context_record children.
Proof.
  intros (elem & _ & Helem)%contexts_of_origin.
  apply context_entry_inv in Helem as (?&?&?&children&_&_&_&_&->). eauto.
Qed.

(** The context element that is stored under an id: the last one in
    document order that carries it. *)
Lemma contexts_of_last d l1 l2 elem i cd :
  iter (root d) = l1 ++ elem :: l2 ->
  context_entry elem = Some (i, cd) ->
  (forall y, y ∈ l2 -> fst <$> context_entry y <> Some i) ->
  contexts_of d !! i = Some cd.
Proof.
  intros Hiter Helem Hl2. unfold contexts_of. rewrite Hiter.
  by apply store_last.
Qed.

Lemma context_entry_Some tag attrib txt children i :
  get_local_name (StrTag tag) = Some "context" ->
  attrib !! "id" = Some i -> i <> "" ->
  context_entry (Element tag attrib txt children)
  = Some (i, context_record children).
Proof.
  intros Htag Hid Hi. cbn [context_entry].
  rewrite bool_decide_eq_true_2 by done. rewrite Hid. by destruct i.
Qed.

(** What a fact holds, in terms of the context stored under its
    [context_id]. *)
Lemma fact_copies_context d f i :
  f ∈ omap (fact_of (nsmap d) (contexts_of d)) (iter (root d)) ->
  f !! "context_id" = Some (PyStr i) ->
  exists cd,
    contexts_of d !! i = Some cd
    /\ f !! "period_type" = cd !! "period_type"
    /\ f !! "dimensions" = cd !! "dimensions"
    /\ (cd !! "period_type" = Some (PyStr "instant") ->
        f !! "date" = Some (dict_get cd "instant")
        /\ f !! "start_date" = None /\ f !! "end_date" = None)
    /\ (cd !! "period_type" <> Some (PyStr "instant") ->
        f !! "date" = None
        /\ f !! "start_date" = Some (dict_get cd "start_date")
        /\ f !! "end_date" = Some (dict_get cd "end_date")).
Proof.
  intros (elem & _ & Hf)%elem_of_facts Hid.
  apply fact_of_inv in Hf
    as (tag & attrib & value & ? & i' & cd & _ & _ & _ & Hcd & _ & ->).
  rewrite make_fact_context_id in Hid. injection Hid as ->.
  exists cd. split; [done|].
  destruct (contexts_of_period_type _ _ _ Hcd) as [pt Hpt].
  destruct (contexts_of_record _ _ _ Hcd) as [children Hrec].
  rewrite make_fact_period_type, make_fact_dimensions.
  unfold dict_get at 1. rewrite Hpt. cbn [default].
  split; [done|]. split.
  { rewrite Hrec, context_record_dimensions. done. }
  split.
  - intros [= ->]. apply make_fact_instant. unfold dict_get. by rewrite Hpt.
  - intros Hne. apply make_fact_not_instant. unfold dict_get. rewrite Hpt.
    cbn. congruence.
Qed.

(** ** Two contexts with the same id *)

Definition duration_context (id start_date end_date : string) : node :=
  Element (xbrli "context") {[ "id" := id ]} None
    [ Element (xbrli "period") ∅ None
        [ Element (xbrli "startDate") ∅ (Some start_date) [];
          Element (xbrli "endDate") ∅ (Some end_date) [] ] ].

Definition doc_duplicate_id : document := {|
  root :=
    Element (xbrli "xbrl") ∅ None
      [ instant_context "C1" "2022-12-31";
        Element (us_gaap "Revenues")
          (<["unitRef" := "USD"]> {[ "contextRef" := "C1" ]}) (Some "250") [];
        duration_context "C1" "2023-01-01" "2023-12-31" ];
  nsmap := ns_ex
|}.

Example parse_doc_duplicate_id file_path :
  parse_xbrl_file (always doc_duplicate_id) file_path
  = [ list_to_map
        [ ("concept", PyStr "Revenues");
          ("prefixed_concept", PyStr "us-gaap:Revenues");
          ("value", PyStr "250"); ("unit", PyStr "USD");
          ("context_id", PyStr "C1"); ("period_type", PyStr "duration");
          ("start_date", PyStr "2023-01-01"); ("end_date", PyStr "2023-12-31");
          ("dimensions", PyDict ∅) ] ].
Proof. reflexivity. Qed.

(** ** The period of a context *)

(** The loop that keeps the last [startDate] and the last [endDate] child
    finds the first such child from the end. *)
Lemma scan_dates_last (p_children : list node) :
  scan_dates p_children
  = (List.find (local_name_is "startDate") (rev p_children),
     List.find (local_name_is "endDate") (rev p_children)).
Proof.
  unfold scan_dates.
  induction p_children as [|x l IH] using rev_ind; [done|].
  rewrite fold_left_app, IH, rev_app_distr. cbn [fold_left rev app List.find].
  destruct (local_name_is "startDate" x) eqn:Hs;
    [|by destruct (local_name_is "endDate" x)].
  destruct x as [tag attrib txt children|repr]; [|done].
  cbn [local_name_is] in *. apply bool_decide_eq_true_1 in Hs.
  rewrite bool_decide_eq_false_2; [done|]. rewrite Hs. by intros [=].
Qed.

Section period.
Variable children : list node.
Let record := context_record children.

Lemma context_record_no_period :
  List.find (local_name_is "period") children = None ->
  record !! "period_type" = Some PyNone
  /\ record !! "instant" = None
  /\ record !! "start_date" = None /\ record !! "end_date" = None.
Proof.
  intros Hp. unfold record, context_record, with_period. rewrite Hp.
  split_and!; by lookup_field.
Qed.

Lemma context_record_instant period instant :
  List.find (local_name_is "period") children = Some period ->
  List.find (local_name_is "instant") (children_of period) = Some instant ->
  record !! "period_type" = Some (PyStr "instant")
  /\ record !! "instant" = Some (of_opt (stripped_text (Some instant))).
Proof.
  intros Hp Hi. unfold record, context_record, with_period. rewrite Hp, Hi.
  split_and!; by lookup_field.
Qed.

Lemma context_record_duration period :
  List.find (local_name_is "period") children = Some period ->
  List.find (local_name_is "instant") (children_of period) = None ->
  record !! "period_type" = Some (PyStr "duration")
  /\ record !! "start_date"
     = Some (of_opt (stripped_text
                       (List.find (local_name_is "startDate")
                                  (rev (children_of period)))))
  /\ record !! "end_date"
     = Some (of_opt (stripped_text
                       (List.find (local_name_is "endDate")
                                  (rev (children_of period))))).
Proof.
  intros Hp Hi. unfold record, context_record, with_period.
  rewrite Hp, Hi, scan_dates_last.
  split_and!; by lookup_field.
Qed.
End period.

(** ** The dimensions of a context *)





(** ** Facts of a stored context

    The setting of C6, C8, C9 and C10: a document, and in it a context element
    with id [i] that no other context element with that id follows in
    document order, so that its record is the one stored under [i]. *)

Section stored_context.
Variables (fs : filesystem) (file_path : string) (d : document).
Variables (l1 l2 : list node) (tag : string) (attrib : gmap string string).
Variables (txt : option string) (children : list node) (i : string).
Hypothesis Hparse : etree_parse fs file_path = Tree (Some d).
Hypothesis Hiter : iter (root d) = l1 ++ Element tag attrib txt children :: l2.
Hypothesis Htag : get_local_name (StrTag tag) = Some "context".
Hypothesis Hid : attrib !! "id" = Some i.
Hypothesis Hi : i <> "".
Hypothesis Hlast : Forall (fun later => context_id_of later <> Some i) l2.

Lemma stored_record : contexts_of d !! i = Some (context_record children).
Proof.
  apply (contexts_of_last d l1 l2 _ i _ Hiter).
  - by apply context_entry_Some.
  - intros y Hy. by apply (proj1 (Forall_forall _ _) Hlast).
Qed.

Lemma stored_record_facts f :
  f ∈ parse_xbrl_file fs file_path ->
  f !! "context_id" = Some (PyStr i) ->
  let cd := context_record children in
  f !! "period_type" = cd !! "period_type"
  /\ f !! "dimensions" = cd !! "dimensions"
  /\ (cd !! "period_type" = Some (PyStr "instant") ->
      f !! "date" = Some (dict_get cd "instant")
      /\ f !! "start_date" = None /\ f !! "end_date" = None)
  /\ (cd !! "period_type" <> Some (PyStr "instant") ->
      f !! "date" = None
      /\ f !! "start_date" = Some (dict_get cd "start_date")
      /\ f !! "end_date" = Some (dict_get cd "end_date")).
Proof.
  rewrite (parse_xbrl_file_tree _ _ _ Hparse). intros Hf Hfi.
  destruct (fact_copies_context d f i Hf Hfi) as (cd' & Hcd & Hrest).
  rewrite stored_record in Hcd. by injection Hcd as <-.
Qed.

(** Every element with text that refers to the id and is not a structural
    element contributes a fact. *)
Lemma stored_record_emits ftag fattrib value fchildren :
  Element ftag fattrib (Some value) fchildren ∈ iter (root d) ->
  fattrib !! "contextRef" = Some i ->
  fst (resolve_names (nsmap d) ftag) ∉ skip_names ->
  exists f,
    f ∈ parse_xbrl_file fs file_path
    /\ f !! "concept" = Some (PyStr (fst (resolve_names (nsmap d) ftag)))
    /\ f !! "value" = Some (PyStr (Py.strip value))
    /\ f !! "context_id" = Some (PyStr i).
Proof.
  intros Helem Href Hskip. eexists. split.
  - rewrite (parse_xbrl_file_tree _ _ _ Hparse).
    apply list_elem_of_omap. eexists. split; [exact Helem|].
    by apply (fact_of_Some _ _ _ _ _ _ i _ Href Hi stored_record).
  - split_and!;
      [apply make_fact_concept | apply make_fact_value
      | apply make_fact_context_id].
Qed.


(** C9 (amended): when the first [period] child of the context has an
    [instant] child, the stored period type is [instant] and every fact
    whose [context_id] is the id has period type [instant] and a [date]
    field that holds the trimmed text of the first [instant] child, or null
    when that child has no text; when the [period] child has no [instant]
    child, the stored period type is [duration] and every such fact has
    period type [duration], no [date] field, and [start_date] and
    [end_date] fields that hold the trimmed text of the last [startDate]
    and of the last [endDate] child, or null when the child is missing or
    has no text.  Every element with text that refers to the id and is not
    a structural element contributes such a fact. *)
Theorem period_fields_of_facts (period : node) :
  List.find (local_name_is "period") children = Some period ->
  exists contexts cd,
    extract_contexts d = Ok contexts
    /\ contexts !! i = Some cd
    /\ (forall ftag fattrib value fchildren,
           Element ftag fattrib (Some value) fchildren ∈ iter (root d) ->
           fattrib !! "contextRef" = Some i ->
           (fst (resolve_names (nsmap d) ftag) ∉ skip_names) ->
           exists f,
             f ∈ parse_xbrl_file fs file_path
             /\ f !! "concept"
                = Some (PyStr (fst (resolve_names (nsmap d) ftag)))
             /\ f !! "value" = Some (PyStr (Py.strip value))
             /\ f !! "context_id" = Some (PyStr i))
    /\ (forall instant,
           List.find (local_name_is "instant") (children_of period)
           = Some instant ->
           cd !! "period_type" = Some (PyStr "instant")
           /\ forall f,
               f ∈ parse_xbrl_file fs file_path ->
               f !! "context_id" = Some (PyStr i) ->
               f !! "period_type" = Some (PyStr "instant")
               /\ f !! "date" = Some (of_opt (stripped_text (Some instant))))
    /\ (List.find (local_name_is "instant") (children_of period) = None ->
        cd !! "period_type" = Some (PyStr "duration")
        /\ forall f,
            f ∈ parse_xbrl_file fs file_path ->
            f !! "context_id" = Some (PyStr i) ->
            f !! "period_type" = Some (PyStr "duration")
            /\ f !! "date" = None
            /\ f !! "start_date"
               = Some (of_opt (stripped_text
                                 (List.find (local_name_is "startDate")
                                            (rev (children_of period)))))
            /\ f !! "end_date"
               = Some (of_opt (stripped_text
                                 (List.find (local_name_is "endDate")
                                            (rev (children_of period)))))).
Proof.
  intros Hperiod. exists (contexts_of d), (context_record children).
  split; [apply extract_contexts_ok|]. split; [apply stored_record|].
  split; [apply stored_record_emits|]. split.
  - intros instant Hinstant.
    destruct (context_record_instant children period instant Hperiod Hinstant)
      as [Hpt Hdate].
    split; [done|]. intros f Hf Hfi.
    destruct (stored_record_facts f Hf Hfi) as (Hfpt & _ & Hinst & _).
    split; [by rewrite Hfpt|].
    destruct (Hinst Hpt) as (-> & _). unfold dict_get. by rewrite Hdate.
  - intros Hnone.
    destruct (context_record_duration children period Hperiod Hnone)
      as (Hpt & Hstart & Hend).
    split; [done|]. intros f Hf Hfi.
    destruct (stored_record_facts f Hf Hfi) as (Hfpt & _ & _ & Hdur).
    split; [by rewrite Hfpt|].
    destruct Hdur as (-> & -> & ->); [by rewrite Hpt|].
    unfold dict_get. by rewrite Hstart, Hend.
Qed.

(** C10 (amended): when the context has no [period] child, and no other
    context element with the same id follows it in document order, the
    stored period type is null; every element with text that refers to the
    id and is not a structural element contributes a fact; and every fact
    whose [context_id] is the id has a null period type, [start_date] and
    [end_date] fields that are both null, and no [date] field. *)
Theorem facts_of_context_without_period :
  List.find (local_name_is "period") children = None ->
  exists contexts cd,
    extract_contexts d = Ok contexts
    /\ contexts !! i = Some cd
    /\ cd !! "period_type" = Some PyNone
    /\ (forall ftag fattrib value fchildren,
           Element ftag fattrib (Some value) fchildren ∈ iter (root d) ->
           fattrib !! "contextRef" = Some i ->
           (fst (resolve_names (nsmap d) ftag) ∉ skip_names) ->
           exists f,
             f ∈ parse_xbrl_file fs file_path
             /\ f !! "concept"
                = Some (PyStr (fst (resolve_names (nsmap d) ftag)))
             /\ f !! "value" = Some (PyStr (Py.strip value))
             /\ f !! "context_id" = Some (PyStr i))
    /\ (forall f,
           f ∈ parse_xbrl_file fs file_path ->
           f !! "context_id" = Some (PyStr i) ->
           f !! "period_type" = Some PyNone
           /\ f !! "start_date" = Some PyNone
           /\ f !! "end_date" = Some PyNone
           /\ f !! "date" = None).
Proof.
  intros Hperiod. exists (contexts_of d), (context_record children).
  destruct (context_record_no_period children Hperiod)
    as (Hpt & Hinst & Hstart & Hend).
  split; [apply extract_contexts_ok|]. split; [apply stored_record|].
  split; [done|]. split.
  - intros ftag fattrib value fchildren Helem Href Hskip.
    eexists. split.
    + rewrite (parse_xbrl_file_tree _ _ _ Hparse).
      apply list_elem_of_omap. eexists. split; [exact Helem|].
      by apply (fact_of_Some _ _ _ _ _ _ i _ Href Hi stored_record).
    + split_and!;
        [apply make_fact_concept | apply make_fact_value
        | apply make_fact_context_id].
  - intros f Hf Hfi.
    destruct (stored_record_facts f Hf Hfi) as (Hfpt & _ & _ & Hdur).
    split; [by rewrite Hfpt|].
    destruct Hdur as (-> & -> & ->); [by rewrite Hpt|].
    unfold dict_get. by rewrite Hstart, Hend.
Qed.


End stored_context.

(** ** C6, C9 and C10 on documents *)

(** [<instant/>]: an instant with no text. *)
Definition doc_empty_instant : document := {|
  root :=
    Element (xbrli "xbrl") ∅ None
      [ Element (xbrli "context") {[ "id" := "C1" ]} None
          [ Element (xbrli "period") ∅ None
              [ Element (xbrli "instant") ∅ None [] ] ];
        assets_fact ];
  nsmap := ns_ex
|}.

Definition fact_empty_instant : pydict :=
  list_to_map
    [ ("concept", PyStr "Assets"); ("prefixed_concept", PyStr "us-gaap:Assets");
      ("value", PyStr "1000"); ("unit", PyStr "USD"); ("context_id", PyStr "C1");
      ("period_type", PyStr "instant"); ("date", PyNone);
      ("dimensions", PyDict ∅) ].

(** C9 (as stated) fails: the period of the context has an [instant]
    child, and the fact that refers to the context carries a null [date],
    not a populated one. *)
Lemma empty_instant_gives_null_date :
  parse_xbrl_file (always doc_empty_instant) "report1.xbrl"
  = [fact_empty_instant]
  /\ fact_empty_instant !! "context_id" = Some (PyStr "C1")
  /\ fact_empty_instant !! "period_type" = Some (PyStr "instant")
  /\ fact_empty_instant !! "date" = Some PyNone.
Proof. split_and!; reflexivity. Qed.

Lemma period_fields_of_facts_witness :
  (exists f,
      f ∈ parse_xbrl_file (always doc_ex) "report1.xbrl"
      /\ f !! "concept" = Some (PyStr "Assets")
      /\ f !! "context_id" = Some (PyStr "C1")
      /\ f !! "period_type" = Some (PyStr "instant")
      /\ f !! "date" = Some (PyStr "2023-12-31"))
  /\ (exists f,
         f ∈ parse_xbrl_file (always doc_duplicate_id) "report1.xbrl"
         /\ f !! "concept" = Some (PyStr "Revenues")
         /\ f !! "context_id" = Some (PyStr "C1")
         /\ f !! "period_type" = Some (PyStr "duration")
         /\ f !! "date" = None
         /\ f !! "start_date" = Some (PyStr "2023-01-01")
         /\ f !! "end_date" = Some (PyStr "2023-12-31")).
Proof.
  split.
  - destruct (period_fields_of_facts (always doc_ex) "report1.xbrl" doc_ex
                (firstn 1 (iter (root doc_ex))) (skipn 2 (iter (root doc_ex)))
                (xbrli "context") {[ "id" := "C1" ]} None
                (children_of (instant_context "C1" "2023-12-31")) "C1"
                eq_refl eq_refl eq_refl eq_refl)
      with (period := Element (xbrli "period") ∅ None
                        [ Element (xbrli "instant") ∅ (Some "2023-12-31") [] ])
      as (contexts & cd & _ & _ & Hemit & Hinstant & _).
    + discriminate.
    + repeat constructor; vm_compute; discriminate.
    + reflexivity.
    + destruct (Hemit (us_gaap "Assets")
                  (<["unitRef" := "USD"]> {[ "contextRef" := "C1" ]}) "1000" [])
        as (f & Hf & Hconcept & _ & Hfi).
      * vm_compute. do 4 right. left.
      * reflexivity.
      * apply (bool_decide_eq_false_1 (_ ∈ skip_names)). reflexivity.
      * exists f.
        destruct (Hinstant _ eq_refl) as [_ Hfields].
        destruct (Hfields f Hf Hfi) as [Hpt Hdate].
        split; [exact Hf|]. split; [exact Hconcept|]. split; [exact Hfi|].
        split; [exact Hpt | exact Hdate].
  - pose (doc := doc_duplicate_id).
    destruct (period_fields_of_facts (always doc) "report1.xbrl" doc
                (firstn 5 (iter (root doc))) (skipn 6 (iter (root doc)))
                (xbrli "context") {[ "id" := "C1" ]} None
                (children_of (duration_context "C1" "2023-01-01" "2023-12-31"))
                "C1" eq_refl eq_refl eq_refl eq_refl)
      with (period := Element (xbrli "period") ∅ None
                        [ Element (xbrli "startDate") ∅ (Some "2023-01-01") [];
                          Element (xbrli "endDate") ∅ (Some "2023-12-31") [] ])
      as (contexts & cd & _ & _ & Hemit & _ & Hduration).
    + discriminate.
    + repeat constructor; vm_compute; discriminate.
    + reflexivity.
    + destruct (Hemit (us_gaap "Revenues")
                  (<["unitRef" := "USD"]> {[ "contextRef" := "C1" ]}) "250" [])
        as (f & Hf & Hconcept & _ & Hfi).
      * vm_compute. do 4 right. left.
      * reflexivity.
      * apply (bool_decide_eq_false_1 (_ ∈ skip_names)). reflexivity.
      * exists f.
        destruct (Hduration eq_refl) as [_ Hfields].
        destruct (Hfields f Hf Hfi) as (Hpt & Hdate & Hstart & Hend).
        split; [exact Hf|]. split; [exact Hconcept|]. split; [exact Hfi|].
        split; [exact Hpt|]. split; [exact Hdate|].
        split; [exact Hstart | exact Hend].
Defined.


(** A context with an entity and no period. *)
Definition doc_no_period : document := {|
  root :=
    Element (xbrli "xbrl") ∅ None
      [ Element (xbrli "context") {[ "id" := "C1" ]} None
          [ Element (xbrli "entity") ∅ None
              [ Element (xbrli "identifier") ∅ (Some "0000320193") [] ] ];
        assets_fact ];
  nsmap := ns_ex
|}.

(** A context without a period, a fact that refers to it, and then a
    second context with the same id and an instant. *)
Definition doc_period_added_later : document := {|
  root :=
    Element (xbrli "xbrl") ∅ None
      [ Element (xbrli "context") {[ "id" := "C1" ]} None
          [ Element (xbrli "entity") ∅ None
              [ Element (xbrli "identifier") ∅ (Some "0000320193") [] ] ];
        assets_fact;
        instant_context "C1" "2023-12-31" ];
  nsmap := ns_ex
|}.

(** C10 (as stated) fails: the first context element has no [period]
    child, and the fact that refers to its id has period type [instant]
    and a [date] field, and no [start_date] field, because a later context
    element with the same id replaces the record before the fact loop
    runs. *)
Lemma context_without_period_is_overwritten :
  List.nth 1 (iter (root doc_period_added_later)) (Special "")
  = Element (xbrli "context") {[ "id" := "C1" ]} None
      [ Element (xbrli "entity") ∅ None
          [ Element (xbrli "identifier") ∅ (Some "0000320193") [] ] ]
  /\ List.find (local_name_is "period")
       (children_of (List.nth 1 (iter (root doc_period_added_later))
                       (Special "")))
     = None
  /\ parse_xbrl_file (always doc_period_added_later) "report1.xbrl" = [fact_ex]
  /\ fact_ex !! "context_id" = Some (PyStr "C1")
  /\ fact_ex !! "period_type" = Some (PyStr "instant")
  /\ fact_ex !! "date" = Some (PyStr "2023-12-31")
  /\ fact_ex !! "start_date" = None
  /\ fact_ex !! "end_date" = None.
Proof. split_and!; reflexivity. Qed.

Lemma facts_of_context_without_period_witness :
  exists f,
    f ∈ parse_xbrl_file (always doc_no_period) "report1.xbrl"
    /\ f !! "concept" = Some (PyStr "Assets")
    /\ f !! "value" = Some (PyStr "1000")
    /\ f !! "context_id" = Some (PyStr "C1")
    /\ f !! "period_type" = Some PyNone
    /\ f !! "start_date" = Some PyNone
    /\ f !! "end_date" = Some PyNone
    /\ f !! "date" = None.
Proof.
  destruct (facts_of_context_without_period
              (always doc_no_period) "report1.xbrl" doc_no_period
              (firstn 1 (iter (root doc_no_period)))
              (skipn 2 (iter (root doc_no_period)))
              (xbrli "context") {[ "id" := "C1" ]} None
              (children_of (List.nth 1 (iter (root doc_no_period)) (Special "")))
              "C1" eq_refl eq_refl eq_refl eq_refl)
    as (contexts & cd & _ & _ & _ & Hemit & Hfields).
  - discriminate.
  - repeat constructor; vm_compute; discriminate.
  - reflexivity.
  - destruct (Hemit (us_gaap "Assets")
                (<["unitRef" := "USD"]> {[ "contextRef" := "C1" ]}) "1000" [])
      as (f & Hf & Hconcept & Hvalue & Hfi).
    + vm_compute. do 4 right. left.
    + reflexivity.
    + apply (bool_decide_eq_false_1 (_ ∈ skip_names)). reflexivity.
    + exists f. destruct (Hfields f Hf Hfi) as (Hpt & Hstart & Hend & Hdate).
      split; [exact Hf|]. split; [exact Hconcept|]. split; [exact Hvalue|].
      split; [exact Hfi|]. split; [exact Hpt|]. split; [exact Hstart|].
      split; [exact Hend | exact Hdate].
Defined.

(** ** C8 on documents *)

Definition xbrldi (name : string) : string :=
  "{http://xbrl.org/2006/xbrldi}" +:+ name.

Definition explicit_member (dimension member : string) : node :=
  Element (xbrldi "explicitMember") {[ "dimension" := dimension ]}
    (Some member) [].

Definition segment_context (id : string) (members : list node) : node :=
  Element (xbrli "context") {[ "id" := id ]} None
    [ Element (xbrli "entity") ∅ None
        [ Element (xbrli "identifier") ∅ (Some "0000320193") [];
          Element (xbrli "segment") ∅ None members ];
      Element (xbrli "period") ∅ None
        [ Element (xbrli "instant") ∅ (Some "2023-12-31") [] ] ].

Definition segment_document (members : list node) : document := {|
  root := Element (xbrli "xbrl") ∅ None
            [ segment_context "C1" members; assets_fact ];
  nsmap := ns_ex
|}.


(** Two members on two axes. *)
Definition members_two_axes : list node :=
  [ explicit_member "us-gaap:StatementBusinessSegmentsAxis" "us-gaap:RetailMember";
    explicit_member "srt:StatementGeographicalAxis" " country:US " ].

Definition fact_with_dimensions (dims : gmap (option string) string) : pydict :=
  list_to_map
    [ ("concept", PyStr "Assets"); ("prefixed_concept", PyStr "us-gaap:Assets");
      ("value", PyStr "1000"); ("unit", PyStr "USD"); ("context_id", PyStr "C1");
      ("period_type", PyStr "instant"); ("date", PyStr "2023-12-31");
      ("dimensions", PyDict dims) ].


Example parse_members_two_axes file_path :
  parse_xbrl_file (always (segment_document members_two_axes)) file_path
  = [ fact_with_dimensions
        (<[ Some "srt:StatementGeographicalAxis" := "country:US" ]>
           {[ Some "us-gaap:StatementBusinessSegmentsAxis"
              := "us-gaap:RetailMember" ]}) ].
Proof. reflexivity. Qed.


(** ** File discovery *)

Module GlobFacts.
Import Py Glob PyFacts.

(** A pattern of literal characters only. *)
Fixpoint lits (s : string) : list item :=
  match s with
  | "" => []
  | String c r => Lit c :: lits r
  end.

Lemma matches_lits (s name : string) :
  matches (lits s) name = true <-> name = s.
Proof.
  revert name. induction s as [|c s IH]; intros [|a name]; cbn; try done.
  rewrite andb_true_iff, Ascii.eqb_eq, IH. split.
  - by intros [-> ->].
  - by intros [= -> ->].
Qed.

Lemma matches_star (pat : list item) (name : string) :
  matches (Star :: pat) name = true
  <-> exists stem rest, name = stem +:+ rest /\ matches pat rest = true.
Proof.
  induction name as [|a name IH].
  - cbn. rewrite orb_false_r. split.
    + intros Hm. by exists "", "".
    + intros ([|? ?] & rest & Hname & Hm).
      * by rewrite append_nil_l in Hname; subst rest.
      * by rewrite append_cons in Hname.
  - change (matches (Star :: pat) (String a name))
      with (matches pat (String a name) || matches (Star :: pat) name).
    rewrite orb_true_iff, IH. split.
    + intros [Hm | (stem & rest & -> & Hm)].
      * by exists "", (String a name).
      * by exists (String a stem), rest.
    + intros ([|b stem] & rest & Hname & Hm).
      * left. by rewrite append_nil_l in Hname; subst rest.
      * right. rewrite append_cons in Hname. injection Hname as -> ->.
        by exists stem, rest.
Qed.

Lemma fnmatch_xbrl (name : string) :
  fnmatch name "*.xbrl" = true <-> exists stem, name = stem +:+ ".xbrl".
Proof.
  change (fnmatch name "*.xbrl") with (matches (Star :: lits ".xbrl") name).
  rewrite matches_star. split.
  - intros (stem & rest & -> & ->%matches_lits). by exists stem.
  - intros (stem & ->). exists stem, ".xbrl". by rewrite matches_lits.
Qed.

Lemma fnmatch_digit_xml (name : string) :
  fnmatch name "*[0-9].xml" = true
  <-> exists stem digit,
        name = stem +:+ String digit ".xml" /\ in_range "0" "9" digit = true.
Proof.
  change (fnmatch name "*[0-9].xml")
    with (matches (Star :: Class "0" "9" :: lits ".xml") name).
  rewrite matches_star. split.
  - intros (stem & [|digit rest] & -> & Hm); [done|].
    change (in_range "0" "9" digit && matches (lits ".xml") rest = true) in Hm.
    apply andb_true_iff in Hm as [Hdigit ->%matches_lits].
    by exists stem, digit.
  - intros (stem & digit & -> & Hdigit). exists stem, (String digit ".xml").
    split; [done|].
    change (in_range "0" "9" digit && matches (lits ".xml") ".xml" = true).
    by rewrite Hdigit.
Qed.

Lemma basename_no_slash (name : string) :
  contains "/" name = false -> basename name = name.
Proof. destruct name as [|a r]; [done|]. cbn [basename]. by intros ->. Qed.

Lemma basename_after_slash (a name : string) :
  contains "/" name = false -> basename (a +:+ String "/" name) = name.
Proof.
  intros Hname. induction a as [|c a IH].
  - rewrite append_nil_l. cbn [basename].
    rewrite contains_char_cons, Ascii.eqb_refl. cbn [orb].
    by apply basename_no_slash.
  - rewrite append_cons. cbn [basename].
    rewrite contains_char_cons, contains_char_app, contains_char_cons.
    rewrite Ascii.eqb_refl, !orb_true_r. done.
Qed.

Lemma endswith_char (c : ascii) (a : string) :
  endswith (String c "") a = true -> exists a', a = a' +:+ String c "".
Proof.
  induction a as [|x a IH]; [done|].
  cbn [endswith]. intros [Heq | Hrec]%orb_true_iff.
  - apply String.eqb_eq in Heq as ->. by exists "".
  - destruct (IH Hrec) as [a' ->]. by exists (String x a').
Qed.

Lemma prefix_slash_no_slash (name : string) :
  contains "/" name = false -> String.prefix "/" name = false.
Proof.
  destruct name as [|a r]; [done|].
  rewrite contains_char_cons. intros [Ha _]%orb_false_iff.
  cbn [String.prefix].
  destruct (ascii_dec "/" a) as [<-|]; [|done].
  by rewrite Ascii.eqb_refl in Ha.
Qed.

Lemma path_join_nil (name : string) : path_join "" name = name.
Proof. unfold path_join. by destruct (String.prefix "/" name). Qed.

Lemma head_of_no_slash (name : string) :
  contains "/" name = false -> head_of name = "".
Proof. destruct name as [|a r]; [done|]. cbn [head_of]. by intros ->. Qed.

Lemma head_of_after_slash (a name : string) :
  contains "/" name = false -> head_of (a +:+ String "/" name) = a +:+ "/".
Proof.
  intros Hname. induction a as [|c a IH].
  - rewrite !append_nil_l. cbn [head_of].
    rewrite contains_char_cons, Ascii.eqb_refl. cbn [orb].
    by rewrite (head_of_no_slash _ Hname).
  - rewrite !append_cons. cbn [head_of].
    rewrite contains_char_cons, contains_char_app, contains_char_cons.
    rewrite Ascii.eqb_refl, !orb_true_r. by rewrite IH.
Qed.

Lemma all_sep_app_slash (a : string) : all_sep (a +:+ "/") = all_sep a.
Proof.
  induction a as [|c a IH]; [done|].
  rewrite append_cons. cbn [all_sep]. by rewrite IH.
Qed.

Lemma rstrip_by_app (p : ascii -> bool) (a : string) (c : ascii) :
  p c = true -> rstrip_by p (a +:+ String c "") = rstrip_by p a.
Proof.
  intros Hc. induction a as [|x a IH].
  - rewrite append_nil_l. cbn [rstrip_by]. by rewrite Hc.
  - rewrite append_cons. cbn [rstrip_by]. by rewrite IH.
Qed.

Lemma append_slash_not_nil (a : string) : String.eqb (a +:+ "/") "" = false.
Proof. by destruct a. Qed.

Lemma all_sep_endswith (s : string) :
  all_sep s = true -> s = "" \/ endswith "/" s = true.
Proof.
  induction s as [|c s IH]; [by left|].
  cbn [all_sep]. intros [Hc Hs]%andb_true_iff.
  apply Ascii.eqb_eq in Hc as ->. right.
  cbn [endswith]. destruct (IH Hs) as [-> | ->]; [done|].
  by rewrite orb_true_r.
Qed.

Lemma rstrip_by_no_trailing (s : string) :
  endswith "/" s = false -> rstrip_by (Ascii.eqb "/") s = s.
Proof.
  induction s as [|c s IH]; [done|].
  cbn [endswith]. intros [Hc Hs]%orb_false_iff.
  cbn [rstrip_by]. destruct s as [|x s].
  - cbn [rstrip_by]. destruct (Ascii.eqb_spec "/" c) as [<-|]; done.
  - by rewrite (IH Hs).
Qed.

Lemma contains_char_rstrip (c : ascii) (p : ascii -> bool) (s : string) :
  contains (String c "") s = false ->
  contains (String c "") (rstrip_by p s) = false.
Proof.
  induction s as [|x s IH]; [done|].
  rewrite contains_char_cons. intros [Hx Hs]%orb_false_iff.
  cbn [rstrip_by]. specialize (IH Hs).
  destruct (rstrip_by p s) as [|y r'].
  - destruct (p x); [done|]. by rewrite contains_char_cons, Hx.
  - by rewrite contains_char_cons, Hx, IH.
Qed.

(** The directory [glob] lists for a pattern joined to [directory]: the
    directory without its trailing slashes, unless it is made of slashes
    only. *)
Definition dirname_of (directory : string) : string :=
  if all_sep directory then directory
  else rstrip_by (Ascii.eqb "/") directory.

Lemma split_after_slash (a pattern : string) :
  contains "/" pattern = false ->
  split (a +:+ String "/" pattern)
  = (if all_sep a then a +:+ "/" else rstrip_by (Ascii.eqb "/") a, pattern).
Proof.
  intros Hpattern. unfold split.
  rewrite (head_of_after_slash _ _ Hpattern).
  rewrite (basename_after_slash _ _ Hpattern).
  rewrite append_slash_not_nil, all_sep_app_slash.
  rewrite (rstrip_by_app _ a "/" eq_refl).
  by destruct (all_sep a).
Qed.

Lemma split_path_join (directory pattern : string) :
  contains "/" pattern = false ->
  split (path_join directory pattern) = (dirname_of directory, pattern).
Proof.
  intros Hpattern. unfold path_join, dirname_of.
  rewrite (prefix_slash_no_slash _ Hpattern).
  destruct directory as [|c directory].
  { unfold split.
    by rewrite (head_of_no_slash _ Hpattern), (basename_no_slash _ Hpattern). }
  destruct (endswith "/" (String c directory)) eqn:Hend.
  - apply endswith_char in Hend as [a Ha]. rewrite Ha.
    rewrite append_assoc. change ("/" +:+ pattern) with (String "/" pattern).
    rewrite (split_after_slash a _ Hpattern), all_sep_app_slash.
    by rewrite (rstrip_by_app _ a "/" eq_refl).
  - change ("/" +:+ pattern) with (String "/" pattern).
    rewrite (split_after_slash (String c directory) _ Hpattern).
    destruct (all_sep (String c directory)) eqn:Hall; [|done].
    apply all_sep_endswith in Hall as [[=]|Hall]. by rewrite Hend in Hall.
Qed.

Lemma dirname_of_no_trailing (directory : string) :
  endswith "/" directory = false -> dirname_of directory = directory.
Proof.
  intros Hend. unfold dirname_of.
  destruct (all_sep directory); [done|]. by apply rstrip_by_no_trailing.
Qed.

Lemma has_magic_dirname_of (directory : string) :
  has_magic directory = false -> has_magic (dirname_of directory) = false.
Proof.
  unfold dirname_of. destruct (all_sep directory); [done|].
  unfold has_magic.
  intros [[Hstar Hany]%orb_false_iff Hclass]%orb_false_iff.
  by rewrite !contains_char_rstrip.
Qed.

(** [glob] on a directory without wildcard characters. *)
Lemma glob_plain (fs : filesystem) (directory pattern : string) :
  contains "/" pattern = false ->
  has_magic directory = false ->
  glob fs directory pattern
  = map (path_join (dirname_of directory))
        (glob1 fs (dirname_of directory) pattern).
Proof.
  intros Hpattern Hmagic. unfold glob.
  rewrite (split_path_join _ _ Hpattern).
  destruct (String.eqb_spec (dirname_of directory) "") as [->|_].
  - induction (glob1 fs "" pattern) as [|name names IH]; [done|].
    cbn [map]. by rewrite path_join_nil, <- IH.
  - rewrite (has_magic_dirname_of _ Hmagic), andb_false_r.
    cbn [flat_map]. by rewrite app_nil_r.
Qed.

Lemma basename_path_join (directory name : string) :
  contains "/" name = false ->
  basename (path_join directory name) = name.
Proof.
  intros Hname. unfold path_join.
  assert (String.prefix "/" name = false) as ->.
  { destruct name as [|a r]; [done|].
    rewrite contains_char_cons in Hname.
    apply orb_false_iff in Hname as [Ha _]. cbn [String.prefix].
    destruct (ascii_dec "/" a) as [<-|]; [|done].
    by rewrite Ascii.eqb_refl in Ha. }
  destruct directory as [|c directory]; [by apply basename_no_slash|].
  destruct (endswith "/" (String c directory)) eqn:Hend.
  - apply endswith_char in Hend as [a' ->].
    rewrite append_assoc. by apply basename_after_slash.
  - by apply basename_after_slash.
Qed.

End GlobFacts.

(** The entry names [find_xbrl_files] keeps, before they are joined to the
    directory. *)
Definition instance_names (names : list string) : list string :=
  let visible := List.filter (fun x => negb (Glob.ishidden x)) names in
  List.filter
    (fun name => negb (existsb (fun x => Py.contains x (Py.lower name))
                               non_instance_markers))
    (List.filter (fun x => Glob.fnmatch x "*.xbrl") visible
     ++ List.filter (fun x => Glob.fnmatch x "*[0-9].xml") visible).

Lemma filter_map_comm {A B} (f : B -> bool) (g : A -> B) (l : list A) :
  List.filter f (map g l) = map g (List.filter (fun x => f (g x)) l).
Proof.
  induction l as [|x l IH]; [done|]. cbn. rewrite IH. by destruct (f (g x)).
Qed.

Lemma find_xbrl_files_names (fs : filesystem) (directory : string) :
  Glob.has_magic directory = false ->
  (forall name, name ∈ listdir fs (GlobFacts.dirname_of directory) ->
                Py.contains "/" name = false) ->
  find_xbrl_files fs directory
  = map (Glob.path_join (GlobFacts.dirname_of directory))
        (instance_names (listdir fs (GlobFacts.dirname_of directory))).
Proof.
  intros Hmagic Hnames. unfold find_xbrl_files.
  rewrite (GlobFacts.glob_plain fs directory "*.xbrl" eq_refl Hmagic).
  rewrite (GlobFacts.glob_plain fs directory "*[0-9].xml" eq_refl Hmagic).
  unfold Glob.glob1, instance_names.
  change (Glob.ishidden "*.xbrl") with false.
  change (Glob.ishidden "*[0-9].xml") with false. cbv iota.
  rewrite <- map_app, filter_map_comm. f_equal.
  apply filter_ext_in. intros name Hin.
  rewrite GlobFacts.basename_path_join; [done|].
  apply Hnames, list_elem_of_In.
  apply in_app_or in Hin as [Hin|Hin];
    apply filter_In in Hin as [Hin _]; by apply filter_In in Hin as [Hin _].
Qed.

Lemma elem_of_instance_names (names : list string) (name : string) :
  name ∈ instance_names names
  <-> name ∈ names
      /\ Glob.ishidden name = false
      /\ ((exists stem, name = stem +:+ ".xbrl")
          \/ (exists stem digit,
                 name = stem +:+ String digit ".xml"
                 /\ Py.in_range "0" "9" digit = true))
      /\ (forall marker, marker ∈ non_instance_markers ->
                         Py.contains marker (Py.lower name) = false).
Proof.
  assert (Hmarkers :
            existsb (fun x => Py.contains x (Py.lower name)) non_instance_markers
            = false
            <-> forall marker, marker ∈ non_instance_markers ->
                               Py.contains marker (Py.lower name) = false).
  { split.
    - intros Hex marker Hm%list_elem_of_In.
      destruct (Py.contains marker (Py.lower name)) eqn:Hc; [|done].
      rewrite <- Hex. symmetry. apply existsb_exists. eauto.
    - intros Hall. apply not_true_iff_false.
      intros (marker & Hm & Hc)%existsb_exists.
      apply list_elem_of_In in Hm. by rewrite (Hall _ Hm) in Hc. }
  rewrite <- Hmarkers. unfold instance_names.
  rewrite !list_elem_of_In, filter_In, in_app_iff, !filter_In.
  rewrite !negb_true_iff, <- GlobFacts.fnmatch_xbrl, <- GlobFacts.fnmatch_digit_xml.
  tauto.
Qed.

(** ** C7: file discovery *)

Definition dir_hidden : filesystem := {|
  listdir := fun _ => [".report1.xbrl"];
  iglob_dirs := fun _ => [];
  libxml := fun _ => Unreadable
|}.

(** C7 (as stated) fails: an entry whose name starts with a dot has the
    extension [.xbrl] and none of the four substrings, and is not
    returned, because [glob] does not match such entries with [*]. *)
Lemma hidden_xbrl_file_is_not_found :
  listdir dir_hidden "filings" = [".report1.xbrl"]
  /\ ".report1.xbrl" = ".report1" +:+ ".xbrl"
  /\ existsb (fun x => Py.contains x (Py.lower ".report1.xbrl"))
             non_instance_markers = false
  /\ find_xbrl_files dir_hidden "filings" = [].
Proof. split_and!; reflexivity. Qed.

Definition example_names : list string :=
  ["report1.xbrl"; "report_label.xml"; "taxonomy_def.xml"; "data5.xml"].

(** C7 (amended): for a directory name without wildcard characters,
    [glob] lists the directory named by it without its trailing slashes
    (the name itself, when it has none).  Given that no entry name there
    contains [/], [find_xbrl_files] returns exactly the paths, joined to
    that directory, of the entries whose name does not start with a dot and
    either ends in [.xbrl] or ends in a digit followed by [.xml], minus the
    entries whose lower-cased name contains [_lab], [label], [dim_] or
    [def]; and on a directory whose entries are [report1.xbrl],
    [report_label.xml], [taxonomy_def.xml] and [data5.xml], in any order,
    it returns [report1.xbrl] and [data5.xml] only. *)
Theorem find_xbrl_files_returns_instances (fs : filesystem) (directory : string) :
  Glob.has_magic directory = false ->
  Forall (fun name => Py.contains "/" name = false)
         (listdir fs (GlobFacts.dirname_of directory)) ->
  Glob.split (Glob.path_join directory "*.xbrl")
  = (GlobFacts.dirname_of directory, "*.xbrl")
  /\ Glob.split (Glob.path_join directory "*[0-9].xml")
     = (GlobFacts.dirname_of directory, "*[0-9].xml")
  /\ (Py.endswith "/" directory = false ->
      GlobFacts.dirname_of directory = directory)
  /\ (forall path,
         path ∈ find_xbrl_files fs directory
         <-> exists name,
               name ∈ listdir fs (GlobFacts.dirname_of directory)
               /\ path = Glob.path_join (GlobFacts.dirname_of directory) name
               /\ Glob.ishidden name = false
               /\ ((exists stem, name = stem +:+ ".xbrl")
                   \/ (exists stem digit,
                          name = stem +:+ String digit ".xml"
                          /\ Py.in_range "0" "9" digit = true))
               /\ (forall marker, marker ∈ non_instance_markers ->
                                  Py.contains marker (Py.lower name) = false))
  /\ (listdir fs (GlobFacts.dirname_of directory) ≡ₚ example_names ->
      find_xbrl_files fs directory
      = [ Glob.path_join (GlobFacts.dirname_of directory) "report1.xbrl";
          Glob.path_join (GlobFacts.dirname_of directory) "data5.xml" ]).
Proof.
  intros Hmagic Hnames.
  split; [by apply GlobFacts.split_path_join|].
  split; [by apply GlobFacts.split_path_join|].
  split; [apply GlobFacts.dirname_of_no_trailing|].
  rewrite (find_xbrl_files_names _ _ Hmagic)
    by (intros name Hin; by apply (proj1 (Forall_forall _ _) Hnames)).
  split.
  - intros path. rewrite list_elem_of_fmap. split.
    + intros (name & -> & Hin). exists name.
      apply elem_of_instance_names in Hin. tauto.
    + intros (name & Hin & -> & Hrest). exists name. split; [done|].
      apply elem_of_instance_names. tauto.
  - intros Hperm. symmetry in Hperm.
    apply permutations_Permutation in Hperm.
    assert (Hall : forallb
                     (fun names =>
                        bool_decide (instance_names names
                                     = ["report1.xbrl"; "data5.xml"]))
                     (permutations example_names) = true)
      by (vm_compute; reflexivity).
    apply list_elem_of_In in Hperm.
    apply (proj1 (forallb_forall _ _) Hall), bool_decide_eq_true_1 in Hperm.
    by rewrite Hperm.
Qed.

Definition dir_example : filesystem := {|
  listdir := fun _ => example_names;
  iglob_dirs := fun _ => [];
  libxml := fun _ => Unreadable
|}.

Lemma find_xbrl_files_returns_instances_witness :
  find_xbrl_files dir_example "filings"
  = ["filings/report1.xbrl"; "filings/data5.xml"]
  /\ find_xbrl_files dir_example "filings//"
     = ["filings/report1.xbrl"; "filings/data5.xml"].
Proof.
  split.
  - apply (find_xbrl_files_returns_instances dir_example "filings").
    + reflexivity.
    + repeat constructor.
    + reflexivity.
  - apply (find_xbrl_files_returns_instances dir_example "filings//").
    + reflexivity.
    + repeat constructor.
    + reflexivity.
Defined.

(** A directory name with a wildcard is not taken literally: the
    directories it stands for are searched, and here there is none. *)
Example find_xbrl_files_wildcard_directory :
  find_xbrl_files dir_example "data[1]" = [].
Proof. reflexivity. Qed.

(** * Further properties of [parser.py] *)

(** ** What can raise *)

(** X1: inside the [try] block of [parse_xbrl_file] only the parse itself
    can raise: the block raises [e] exactly when [etree.parse] raises [e],
    or when the tree has no root and the first use of the root raises
    [AttributeError].  On every tree with a root both loops run to the end:
    the [TypeError] of a test [in None] and the [KeyError] of a missing
    context key are never reached. *)
Theorem parse_body_raises_iff (fs : filesystem) (file_path : string) (e : exn) :
  parse_body fs file_path = Raise e
  <-> etree_parse fs file_path = Raises e
      \/ (etree_parse fs file_path = Tree None /\ e = AttributeError).
Proof.
  unfold parse_body.
  destruct (etree_parse fs file_path) as [e'|[d|]].
  - split; [intros [= ->]; by left | intros [[= ->]|[[=] _]]; done].
  - rewrite extract_facts_ok. split; [done | intros [[=]|[[=] _]]].
  - split; [intros [= <-]; by right | by intros [[=]|[_ ->]]].
Qed.

(** ** [parse_directory] on any number of files *)

(** X2: [parse_directory] returns the facts of the discovered files on
    which parsing does not raise, file after file in discovery order and in
    document order within a file; the files on which it raises, whatever
    their number and position, contribute nothing. *)
Theorem parse_directory_skips_failures (fs : filesystem) (directory : string) :
  parse_directory fs directory
  = List.concat
      (map (parse_xbrl_file fs)
           (List.filter
              (fun file_path =>
                 match parse_body fs file_path with
                 | Ok _ => true
                 | Raise _ => false
                 end)
              (find_xbrl_files fs directory))).
Proof.
  rewrite parse_directory_concat.
  induction (find_xbrl_files fs directory) as [|file files IH]; [done|].
  cbn -[parse_xbrl_file parse_body]. rewrite IH.
  pose proof (eq_refl (parse_xbrl_file fs file)) as Hfile.
  unfold parse_xbrl_file at 2 in Hfile.
  destruct (parse_body fs file); [done|]. by rewrite Hfile.
Qed.

(** ** The shape of contexts and facts *)

Lemma context_record_shape (children : list node) :
  let cd := context_record children in
  (cd !! "period_type" = Some PyNone
   /\ cd !! "instant" = None
   /\ cd !! "start_date" = None /\ cd !! "end_date" = None)
  \/ (cd !! "period_type" = Some (PyStr "instant")
      /\ is_Some (cd !! "instant")
      /\ cd !! "start_date" = None /\ cd !! "end_date" = None)
  \/ (cd !! "period_type" = Some (PyStr "duration")
      /\ cd !! "instant" = None
      /\ is_Some (cd !! "start_date") /\ is_Some (cd !! "end_date")).
Proof.
  cbn zeta. unfold context_record, with_period.
  destruct (List.find _ children) as [period|].
  - destruct (List.find _ (children_of period)) as [instant|].
    + right. left. split_and!; lookup_field; eauto.
    + right. right. destruct (scan_dates _) as [start_date end_date].
      split_and!; lookup_field; eauto.
  - left. split_and!; by lookup_field.
Qed.

(** X3: every context stored by the first loop has a [dimensions]
    dictionary and is of one of three shapes: period type null and no
    period key; period type [instant], an [instant] key and no date-range
    key; period type [duration], [start_date] and [end_date] keys and no
    [instant] key. *)
Theorem stored_context_shape (d : document) (contexts : gmap string pydict)
    (i : string) (cd : pydict) :
  extract_contexts d = Ok contexts ->
  contexts !! i = Some cd ->
  (exists dims, cd !! "dimensions" = Some (PyDict dims))
  /\ ((cd !! "period_type" = Some PyNone
       /\ cd !! "instant" = None
       /\ cd !! "start_date" = None /\ cd !! "end_date" = None)
      \/ (cd !! "period_type" = Some (PyStr "instant")
          /\ is_Some (cd !! "instant")
          /\ cd !! "start_date" = None /\ cd !! "end_date" = None)
      \/ (cd !! "period_type" = Some (PyStr "duration")
          /\ cd !! "instant" = None
          /\ is_Some (cd !! "start_date") /\ is_Some (cd !! "end_date"))).
Proof.
  rewrite extract_contexts_ok. intros [= <-] Hcd.
  destruct (contexts_of_record _ _ _ Hcd) as [children ->]. split.
  - eexists. apply context_record_dimensions.
  - apply context_record_shape.
Qed.

Definition duration_record : pydict :=
  context_record
    (children_of (duration_context "C1" "2023-01-01" "2023-12-31")).

Lemma stored_context_shape_witness :
  (exists dims, duration_record !! "dimensions" = Some (PyDict dims))
  /\ ((duration_record !! "period_type" = Some PyNone
       /\ duration_record !! "instant" = None
       /\ duration_record !! "start_date" = None
       /\ duration_record !! "end_date" = None)
      \/ (duration_record !! "period_type" = Some (PyStr "instant")
          /\ is_Some (duration_record !! "instant")
          /\ duration_record !! "start_date" = None
          /\ duration_record !! "end_date" = None)
      \/ (duration_record !! "period_type" = Some (PyStr "duration")
          /\ duration_record !! "instant" = None
          /\ is_Some (duration_record !! "start_date")
          /\ is_Some (duration_record !! "end_date"))).
Proof.
  apply (stored_context_shape doc_duplicate_id (contexts_of doc_duplicate_id)
           "C1" duration_record).
  - apply extract_contexts_ok.
  - reflexivity.
Defined.

Lemma dom_make_fact local_name prefixed_name value unit_ref context_ref
    context period_type :
  dom (make_fact local_name prefixed_name value unit_ref context_ref
         context period_type)
  = ({[ "concept"; "prefixed_concept"; "value"; "unit"; "context_id";
        "period_type"; "dimensions" ]}
     ∪ (if bool_decide (period_type = PyStr "instant")
        then {[ "date" ]} else {[ "start_date"; "end_date" ]}) : gset string).
Proof.
  unfold make_fact. case_bool_decide;
    rewrite !dom_insert_L, dom_singleton_L; set_solver.
Qed.

(** X4: every fact has the keys [concept], [prefixed_concept], [value],
    [unit], [context_id], [period_type] and [dimensions], and besides them
    either [date] alone, when its period type is [instant], or
    [start_date] and [end_date] alone, otherwise; its period type is null,
    [instant] or [duration], and [dimensions] always holds a dictionary,
    never null. *)
Theorem fact_keys (fs : filesystem) (file_path : string) (f : pydict) :
  f ∈ parse_xbrl_file fs file_path ->
  exists period_type dims,
    f !! "period_type" = Some period_type
    /\ (period_type = PyNone \/ period_type = PyStr "instant"
        \/ period_type = PyStr "duration")
    /\ f !! "dimensions" = Some (PyDict dims)
    /\ dom f
       = ({[ "concept"; "prefixed_concept"; "value"; "unit"; "context_id";
             "period_type"; "dimensions" ]}
          ∪ (if bool_decide (period_type = PyStr "instant")
             then {[ "date" ]} else {[ "start_date"; "end_date" ]})
          : gset string).
Proof.
  intros (d & elem & _ & _ & Hf)%elem_of_parse_xbrl_file.
  apply fact_of_inv in Hf
    as (tag & attrib & value & ? & i & cd & _ & _ & _ & Hcd & _ & ->).
  destruct (contexts_of_record _ _ _ Hcd) as [children ->].
  exists (dict_get (context_record children) "period_type"),
         (dimensions_of children).
  split; [apply make_fact_period_type|]. split.
  { unfold dict_get.
    destruct (context_record_shape children)
      as [(-> & _)|[(-> & _)|(-> & _)]]; cbn; auto. }
  split.
  { rewrite make_fact_dimensions. by rewrite context_record_dimensions. }
  apply dom_make_fact.
Qed.

Lemma fact_keys_witness :
  exists period_type dims,
    fact_ex !! "period_type" = Some period_type
    /\ (period_type = PyNone \/ period_type = PyStr "instant"
        \/ period_type = PyStr "duration")
    /\ fact_ex !! "dimensions" = Some (PyDict dims)
    /\ dom fact_ex
       = ({[ "concept"; "prefixed_concept"; "value"; "unit"; "context_id";
             "period_type"; "dimensions" ]}
          ∪ (if bool_decide (period_type = PyStr "instant")
             then {[ "date" ]} else {[ "start_date"; "end_date" ]})
          : gset string).
Proof.
  apply (fact_keys (always doc_ex) "report1.xbrl").
  rewrite parse_doc_ex. apply list_elem_of_here.
Defined.

(** ** From elements to facts *)

(** Whether the second loop appends a fact for an element: the element has
    text, its [contextRef] is not empty and is a key of the context map,
    and its local name is not one of the structural names. *)
Definition reports (contexts : gmap string pydict) (elem : node) : bool :=
  match elem with
  | Element tag attrib (Some _) _ =>
      match attrib !! "contextRef", get_local_name (StrTag tag) with
      | Some (String _ _ as context_ref), Some local_name =>
          bool_decide (is_Some (contexts !! context_ref))
          && negb (bool_decide (local_name ∈ skip_names))
      | _, _ => false
      end
  | _ => false
  end.

Lemma resolve_names_local ns_map tag :
  get_local_name (StrTag tag) = Some (fst (resolve_names ns_map tag)).
Proof.
  unfold resolve_names. cbn [get_local_name].
  destruct (Py.contains "}" tag); [|done].
  destruct (Py.split1 "}" tag) as [ns rest]. cbn [snd].
  by destruct (find_prefix ns_map _) as [[|? ?]|].
Qed.

Lemma fact_of_reports ns_map contexts elem :
  match fact_of ns_map contexts elem with
  | Some f =>
      reports contexts elem = true
      /\ exists tag attrib value children,
           elem = Element tag attrib (Some value) children
           /\ f !! "concept" = PyStr <$> get_local_name (StrTag tag)
           /\ f !! "value" = Some (PyStr (Py.strip value))
           /\ f !! "unit" = Some (of_opt (attrib !! "unitRef"))
           /\ f !! "context_id" = PyStr <$> attrib !! "contextRef"
  | None => reports contexts elem = false
  end.
Proof.
  destruct elem as [tag attrib [value|] children|repr]; [|done..].
  unfold fact_of, reports.
  pose proof (resolve_names_local ns_map tag) as Hlocal.
  destruct (attrib !! "contextRef") as [[|a r]|] eqn:Href.
  1, 3: by destruct (get_local_name (StrTag tag)).
  rewrite Hlocal.
  destruct (contexts !! String a r) as [cd|] eqn:Hcd.
  2: { by rewrite bool_decide_eq_false_2 by (by intros [? ?]). }
  rewrite bool_decide_eq_true_2 by eauto.
  destruct (resolve_names ns_map tag) as [l p] eqn:Hnames.
  cbn [fst mbind option_bind andb]. case_bool_decide; [done|].
  split; [done|]. exists tag, attrib, value, children.
  rewrite make_fact_concept, make_fact_value, make_fact_unit,
    make_fact_context_id, Href, Hlocal.
  done.
Qed.

Lemma omap_filter_Forall2 {A B} (f : A -> option B) (keep : A -> bool)
    (R : A -> B -> Prop) (xs : list A) :
  (forall x, match f x with
             | Some y => keep x = true /\ R x y
             | None => keep x = false
             end) ->
  Forall2 R (List.filter keep xs) (omap f xs).
Proof.
  intros Hf. induction xs as [|x xs IH]; [constructor|].
  cbn. specialize (Hf x). destruct (f x) as [y|].
  - destruct Hf as [-> HR]. by constructor.
  - by rewrite Hf.
Qed.

(** X5: the facts of a document correspond one to one, and in document
    order, to the elements that have text, a non-empty [contextRef] that is
    a key of the context map, and a local name that is not structural; the
    fact of such an element has the local name of its tag as [concept], its
    trimmed text as [value], its [unitRef] attribute (null when absent) as
    [unit], and its [contextRef] as [context_id]. *)
Theorem facts_follow_elements (fs : filesystem) (file_path : string)
    (d : document) :
  etree_parse fs file_path = Tree (Some d) ->
  exists contexts,
    extract_contexts d = Ok contexts
    /\ Forall2
         (fun elem f =>
            exists tag attrib value children,
              elem = Element tag attrib (Some value) children
              /\ f !! "concept" = PyStr <$> get_local_name (StrTag tag)
              /\ f !! "value" = Some (PyStr (Py.strip value))
              /\ f !! "unit" = Some (of_opt (attrib !! "unitRef"))
              /\ f !! "context_id" = PyStr <$> attrib !! "contextRef")
         (List.filter (reports contexts) (iter (root d)))
         (parse_xbrl_file fs file_path).
Proof.
  intros Hd. exists (contexts_of d). split; [apply extract_contexts_ok|].
  rewrite (parse_xbrl_file_tree _ _ _ Hd).
  apply omap_filter_Forall2. intros elem.
  pose proof (fact_of_reports (nsmap d) (contexts_of d) elem) as Hfact.
  by destruct (fact_of _ _ elem).
Qed.

Lemma facts_follow_elements_witness :
  exists contexts,
    extract_contexts doc_dangling = Ok contexts
    /\ Forall2
         (fun elem f =>
            exists tag attrib value children,
              elem = Element tag attrib (Some value) children
              /\ f !! "concept" = PyStr <$> get_local_name (StrTag tag)
              /\ f !! "value" = Some (PyStr (Py.strip value))
              /\ f !! "unit" = Some (of_opt (attrib !! "unitRef"))
              /\ f !! "context_id" = PyStr <$> attrib !! "contextRef")
         (List.filter (reports contexts) (iter (root doc_dangling)))
         (parse_xbrl_file (always doc_dangling) "report1.xbrl").
Proof.
  exact (facts_follow_elements (always doc_dangling) "report1.xbrl"
           doc_dangling eq_refl).
Defined.

(** X6: no fact has a structural name as its concept: an element named
    [context], [unit], [schemaRef], [roleRef] or [arcroleRef] never becomes
    a fact, whatever its attributes and text. *)
Theorem no_structural_fact (fs : filesystem) (file_path : string) (f : pydict) :
  f ∈ parse_xbrl_file fs file_path ->
  exists concept,
    f !! "concept" = Some (PyStr concept)
    /\ concept ∉ ["context"; "unit"; "schemaRef"; "roleRef"; "arcroleRef"].
Proof.
  intros (d & elem & _ & _ & Hf)%elem_of_parse_xbrl_file.
  apply fact_of_inv in Hf
    as (tag & attrib & value & ? & i & cd & _ & _ & _ & _ & Hskip & ->).
  eexists. split; [apply make_fact_concept | exact Hskip].
Qed.

(** An element named [unit] that carries a [contextRef] and text. *)
Definition doc_structural : document := {|
  root :=
    Element (xbrli "xbrl") ∅ None
      [ instant_context "C1" "2023-12-31";
        Element (xbrli "unit") {[ "contextRef" := "C1" ]} (Some "USD") [];
        assets_fact ];
  nsmap := ns_ex
|}.

Lemma no_structural_fact_witness :
  parse_xbrl_file (always doc_structural) "report1.xbrl" = [fact_ex]
  /\ exists concept,
       fact_ex !! "concept" = Some (PyStr concept)
       /\ concept ∉ ["context"; "unit"; "schemaRef"; "roleRef"; "arcroleRef"].
Proof.
  split; [reflexivity|].
  apply (no_structural_fact (always doc_structural) "report1.xbrl").
  apply list_elem_of_here.
Defined.

(** ** The prefixed concept *)

Import PyFacts.

Lemma contains_char_false_cons (c a : ascii) (r : string) :
  Py.contains (String c "") (String a r) = false
  <-> a <> c /\ Py.contains (String c "") r = false.
Proof.
  rewrite contains_char_cons, orb_false_iff, Ascii.eqb_neq.
  split; intros [? ?]; split; congruence.
Qed.

Lemma lstrip_by_none (p : ascii -> bool) (s : string) :
  (forall a r, s = String a r -> p a = false) -> Py.lstrip_by p s = s.
Proof.
  destruct s as [|a r]; [done|]. intros Hs. cbn. by rewrite (Hs a r).
Qed.

Lemma rstrip_by_absent (c : ascii) (s : string) :
  Py.contains (String c "") s = false ->
  Py.rstrip_by (Ascii.eqb c) s = s.
Proof.
  induction s as [|a r IH]; [done|].
  intros [Hac Hr]%contains_char_false_cons. cbn [Py.rstrip_by].
  rewrite (IH Hr). destruct r; [|done].
  by apply not_eq_sym, Ascii.eqb_neq in Hac as ->.
Qed.

Lemma strip_char_after (c : ascii) (s : string) :
  Py.contains (String c "") s = false ->
  Py.strip_char c (String c s) = s.
Proof.
  intros Hs. unfold Py.strip_char. cbn [Py.rstrip_by].
  rewrite (rstrip_by_absent c s Hs).
  destruct s as [|a r].
  - cbn. by rewrite Ascii.eqb_refl.
  - cbn [Py.lstrip_by]. rewrite Ascii.eqb_refl.
    apply contains_char_false_cons in Hs as [Hac _].
    cbn [Py.lstrip_by]. by apply not_eq_sym, Ascii.eqb_neq in Hac as ->.
Qed.

Lemma resolve_names_plain ns_map tag :
  Py.contains "}" tag = false -> resolve_names ns_map tag = (tag, tag).
Proof. intros Htag. unfold resolve_names. by rewrite Htag. Qed.

Lemma resolve_names_clark ns_map uri local_name :
  Py.contains "{" uri = false -> Py.contains "}" uri = false ->
  resolve_names ns_map ("{" +:+ uri +:+ "}" +:+ local_name)
  = (local_name,
     match List.find (fun '(_, u) => String.eqb u uri) ns_map with
     | Some (Some (String _ _ as prefix), _) => prefix +:+ ":" +:+ local_name
     | _ => local_name
     end).
Proof.
  intros Hopen Hclose. unfold resolve_names.
  change ("{" +:+ uri +:+ "}" +:+ local_name)
    with (String "{" uri +:+ String "}" local_name).
  assert (Py.contains "}" (String "{" uri +:+ String "}" local_name) = true)
    as ->.
  { rewrite contains_char_app. apply orb_true_iff. right.
    by rewrite contains_char_cons, Ascii.eqb_refl. }
  rewrite split1_first by (by rewrite contains_char_cons, Hclose).
  cbn [default]. rewrite (strip_char_after "{" uri Hopen).
  unfold find_prefix.
  by destruct (List.find _ ns_map) as [[[[|? ?]|] ?]|].
Qed.

(** X7: how the prefixed concept of a fact is resolved.  For a tag with no
    namespace part the concept and the prefixed concept are the tag.  For a
    tag [{uri}local] the concept is [local], and the prefixed concept is
    [prefix:local] for the prefix of the first binding of [uri] in the
    namespace map of the root, and [local] alone when [uri] has no binding
    there or when that first binding is the default namespace. *)
Theorem prefixed_concept_resolution (fs : filesystem) (file_path : string)
    (f : pydict) :
  f ∈ parse_xbrl_file fs file_path ->
  exists d tag attrib value children concept prefixed,
    etree_parse fs file_path = Tree (Some d)
    /\ Element tag attrib (Some value) children ∈ iter (root d)
    /\ f !! "concept" = Some (PyStr concept)
    /\ f !! "prefixed_concept" = Some (PyStr prefixed)
    /\ (Py.contains "}" tag = false -> concept = tag /\ prefixed = tag)
    /\ (forall uri local_name,
           tag = "{" +:+ uri +:+ "}" +:+ local_name ->
           Py.contains "{" uri = false -> Py.contains "}" uri = false ->
           concept = local_name
           /\ prefixed
              = match List.find (fun '(_, u) => String.eqb u uri) (nsmap d) with
                | Some (Some (String _ _ as prefix), _) =>
                    prefix +:+ ":" +:+ local_name
                | _ => local_name
                end).
Proof.
  intros (d & elem & Hd & Helem & Hf)%elem_of_parse_xbrl_file.
  apply fact_of_inv in Hf
    as (tag & attrib & value & children & i & cd & -> & _ & _ & _ & _ & ->).
  exists d, tag, attrib, value, children,
    (fst (resolve_names (nsmap d) tag)), (snd (resolve_names (nsmap d) tag)).
  split_and!; [done | done | apply make_fact_concept
              | apply make_fact_prefixed_concept | |].
  - intros Htag. by rewrite (resolve_names_plain _ _ Htag).
  - intros uri local_name -> Hopen Hclose.
    by rewrite (resolve_names_clark _ _ _ Hopen Hclose).
Qed.

Lemma prefixed_concept_resolution_witness :
  exists d tag attrib value children concept prefixed,
    etree_parse (always doc_ex) "report1.xbrl" = Tree (Some d)
    /\ Element tag attrib (Some value) children ∈ iter (root d)
    /\ fact_ex !! "concept" = Some (PyStr concept)
    /\ fact_ex !! "prefixed_concept" = Some (PyStr prefixed)
    /\ (Py.contains "}" tag = false -> concept = tag /\ prefixed = tag)
    /\ (forall uri local_name,
           tag = "{" +:+ uri +:+ "}" +:+ local_name ->
           Py.contains "{" uri = false -> Py.contains "}" uri = false ->
           concept = local_name
           /\ prefixed
              = match List.find (fun '(_, u) => String.eqb u uri) (nsmap d) with
                | Some (Some (String _ _ as prefix), _) =>
                    prefix +:+ ":" +:+ local_name
                | _ => local_name
                end).
Proof.
  apply (prefixed_concept_resolution (always doc_ex) "report1.xbrl" fact_ex).
  rewrite parse_doc_ex. apply list_elem_of_here.
Defined.

(** The default namespace and a prefix bound to the same URI, the default
    first: the prefix is not used. *)
Definition doc_default_namespace : document := {|
  root :=
    Element (us_gaap "xbrl") ∅ None
      [ instant_context "C1" "2023-12-31"; assets_fact ];
  nsmap := [ (None, "http://fasb.org/us-gaap/2023");
             (Some "us-gaap", "http://fasb.org/us-gaap/2023");
             (Some "xbrli", "http://www.xbrl.org/2003/instance") ]
|}.

Example parse_doc_default_namespace file_path :
  exists f,
    parse_xbrl_file (always doc_default_namespace) file_path = [f]
    /\ f !! "concept" = Some (PyStr "Assets")
    /\ f !! "prefixed_concept" = Some (PyStr "Assets").
Proof. eexists. split_and!; reflexivity. Qed.

(** ** The keys of the context map *)

Lemma store_is_Some {K} `{Countable K} {V X : Type} (entry : X -> option (K * V))
    (xs : list X) (m : gmap K V) (x : X) (k : K) (v : V) :
  x ∈ xs -> entry x = Some (k, v) ->
  is_Some (fold_left (store entry) xs m !! k).
Proof.
  intros Hx Hentry. revert m.
  induction xs as [|y xs IH] using rev_ind; [by apply elem_of_nil in Hx|].
  intros m. rewrite fold_left_app. cbn [fold_left]. unfold store at 1.
  apply elem_of_app in Hx as [Hx | ->%list_elem_of_singleton].
  - destruct (entry y) as [[k' v']|]; [|by apply IH].
    destruct (decide (k' = k)) as [->|Hne].
    + rewrite lookup_insert_eq. eauto.
    + rewrite lookup_insert_ne by done. by apply IH.
  - rewrite Hentry, lookup_insert_eq. eauto.
Qed.

(** X8: the keys of the context map are exactly the non-empty [id]
    attributes of the elements named [context], at any depth of the
    document; an element named [context] with no [id], or an empty one,
    stores nothing. *)
Theorem context_map_keys (d : document) :
  exists contexts,
    extract_contexts d = Ok contexts
    /\ forall i,
         is_Some (contexts !! i)
         <-> exists tag attrib txt children,
               Element tag attrib txt children ∈ iter (root d)
               /\ get_local_name (StrTag tag) = Some "context"
               /\ attrib !! "id" = Some i /\ i <> "".
Proof.
  exists (contexts_of d). split; [apply extract_contexts_ok|].
  intros i. split.
  - intros [cd (elem & Helem & Hentry)%contexts_of_origin].
    apply context_entry_inv in Hentry
      as (tag & attrib & txt & children & -> & Htag & Hid & Hi & _).
    by exists tag, attrib, txt, children.
  - intros (tag & attrib & txt & children & Helem & Htag & Hid & Hi).
    eapply store_is_Some; [exact Helem|].
    by apply context_entry_Some.
Qed.

(** ** No path twice *)

Lemma length_append (a b : string) :
  String.length (a +:+ b) = String.length a + String.length b.
Proof.
  induction a as [|x a IH]; [done|]. rewrite append_cons. cbn. by rewrite IH.
Qed.

Lemma xbrl_is_not_digit_xml (stem1 stem2 : string) (digit : ascii) :
  stem1 +:+ ".xbrl" <> stem2 +:+ String digit ".xml".
Proof.
  revert stem2. induction stem1 as [|c stem1 IH]; intros [|c' stem2].
  - rewrite !append_nil_l. by intros [= _ ?].
  - rewrite append_nil_l, append_cons. intros [= _ Heq].
    apply (f_equal String.length) in Heq. rewrite length_append in Heq.
    cbn in Heq. lia.
  - rewrite append_nil_l, append_cons. intros [= _ Heq].
    apply (f_equal String.length) in Heq. rewrite length_append in Heq.
    cbn in Heq. lia.
  - rewrite !append_cons. intros [= _ Heq]. by apply (IH stem2).
Qed.

Lemma NoDup_list_filter {A} (f : A -> bool) (l : list A) :
  NoDup l -> NoDup (List.filter f l).
Proof.
  induction 1 as [|x l Hx Hl IH]; [constructor|]. cbn.
  destruct (f x); [|done]. constructor; [|done].
  rewrite list_elem_of_In, filter_In, <- list_elem_of_In. tauto.
Qed.

Lemma NoDup_instance_names (names : list string) :
  NoDup names -> NoDup (instance_names names).
Proof.
  intros Hnames. unfold instance_names.
  apply NoDup_list_filter, NoDup_app. split_and!.
  - by do 2 apply NoDup_list_filter.
  - intros name Hxbrl Hxml.
    apply list_elem_of_In, filter_In in Hxbrl as [_ Hxbrl].
    apply list_elem_of_In, filter_In in Hxml as [_ Hxml].
    apply GlobFacts.fnmatch_xbrl in Hxbrl as [stem1 ->].
    apply GlobFacts.fnmatch_digit_xml in Hxml as (stem2 & digit & Heq & _).
    by apply xbrl_is_not_digit_xml in Heq.
  - by do 2 apply NoDup_list_filter.
Qed.

(** X9: for a directory name without wildcard characters, when the
    entries of the directory are distinct names without [/],
    [find_xbrl_files] returns no path twice: no name matches both
    patterns. *)
Theorem find_xbrl_files_NoDup (fs : filesystem) (directory : string) :
  Glob.has_magic directory = false ->
  Forall (fun name => Py.contains "/" name = false)
         (listdir fs (GlobFacts.dirname_of directory)) ->
  NoDup (listdir fs (GlobFacts.dirname_of directory)) ->
  NoDup (find_xbrl_files fs directory).
Proof.
  intros Hmagic Hslash Hnames.
  assert (Hno : forall name,
             name ∈ listdir fs (GlobFacts.dirname_of directory) ->
             Py.contains "/" name = false)
    by (by apply Forall_forall).
  rewrite (find_xbrl_files_names _ _ Hmagic Hno).
  apply NoDup_fmap_2_strong; [|by apply NoDup_instance_names].
  intros x y Hx Hy Heq.
  apply elem_of_instance_names in Hx as [Hx _].
  apply elem_of_instance_names in Hy as [Hy _].
  rewrite <- (GlobFacts.basename_path_join (GlobFacts.dirname_of directory) x
                (Hno _ Hx)).
  rewrite <- (GlobFacts.basename_path_join (GlobFacts.dirname_of directory) y
                (Hno _ Hy)).
  by rewrite Heq.
Qed.

Lemma find_xbrl_files_NoDup_witness :
  NoDup (find_xbrl_files dir_ex "filings").
Proof.
  apply find_xbrl_files_NoDup.
  - reflexivity.
  - repeat constructor.
  - apply (bool_decide_unpack _). reflexivity.
Defined.

(** ** Comments and processing instructions *)

Definition is_element (n : node) : bool :=
  match n with
  | Element _ _ _ _ => true
  | Special _ => false
  end.

(** The tree without its comments, processing instructions and entities,
    at every depth. *)
Fixpoint prune (n : node) : node :=
  match n with
  | Element tag attrib txt children =>
      Element tag attrib txt
        ((fix prune_all (cs : list node) : list node :=
            match cs with
            | [] => []
            | Special _ :: rest => prune_all rest
            | (Element _ _ _ _ as c) :: rest => prune c :: prune_all rest
            end) children)
  | Special repr => Special repr
  end.

Definition prune_children (cs : list node) : list node :=
  map prune (List.filter is_element cs).

Lemma prune_Element tag attrib txt children :
  prune (Element tag attrib txt children)
  = Element tag attrib txt (prune_children children).
Proof.
  cbn [prune]. f_equal. unfold prune_children.
  induction children as [|[t a x cs|r] rest IH]; [done| |done].
  cbn [List.filter is_element map]. by rewrite <- IH.
Qed.

(** Induction on a tree, with the property available for the children. *)
Fixpoint node_induction (P : node -> Prop)
    (HElement : forall tag attrib txt children,
        Forall P children -> P (Element tag attrib txt children))
    (HSpecial : forall repr, P (Special repr)) (n : node) : P n :=
  match n with
  | Element tag attrib txt children =>
      HElement tag attrib txt children
        ((fix all (cs : list node) : Forall P cs :=
            match cs with
            | [] => @List.Forall_nil node P
            | c :: rest =>
                @List.Forall_cons node P c rest
                  (node_induction P HElement HSpecial c) (all rest)
            end) children)
  | Special repr => HSpecial repr
  end.

Lemma prune_children_app (xs ys : list node) :
  prune_children (xs ++ ys) = prune_children xs ++ prune_children ys.
Proof. unfold prune_children. by rewrite List.filter_app, map_app. Qed.

Lemma prune_children_Element tag attrib txt children (rest : list node) :
  prune_children (Element tag attrib txt children :: rest)
  = prune (Element tag attrib txt children) :: prune_children rest.
Proof. done. Qed.

Lemma prune_children_Special repr (rest : list node) :
  prune_children (Special repr :: rest) = prune_children rest.
Proof. done. Qed.

Lemma iter_prune (n : node) :
  is_element n = true -> iter (prune n) = prune_children (iter n).
Proof.
  induction n as [tag attrib txt children IH|repr] using node_induction;
    [intros _ | done].
  cbn [iter]. rewrite prune_children_Element, prune_Element. cbn [iter].
  f_equal.
  induction IH as [|c rest Hc _ IHrest]; [done|].
  cbn [flat_map]. rewrite prune_children_app, <- IHrest.
  destruct c as [t a x cs|r].
  - rewrite prune_children_Element. cbn [flat_map]. by rewrite Hc.
  - done.
Qed.

Lemma text_of_prune (n : node) : text_of (prune n) = text_of n.
Proof. destruct n; [by rewrite prune_Element | done]. Qed.

Lemma local_name_is_prune (name : string) (n : node) :
  local_name_is name (prune n) = local_name_is name n.
Proof. destruct n; [by rewrite prune_Element | done]. Qed.

Lemma children_of_prune (n : node) :
  children_of (prune n) = prune_children (children_of n).
Proof. destruct n; [by rewrite prune_Element | done]. Qed.

Lemma stripped_text_prune (e : option node) :
  stripped_text (prune <$> e) = stripped_text e.
Proof.
  unfold stripped_text. destruct e as [n|]; [|done]. cbn.
  by rewrite text_of_prune.
Qed.

Lemma find_prune (name : string) (cs : list node) :
  List.find (local_name_is name) (prune_children cs)
  = prune <$> List.find (local_name_is name) cs.
Proof.
  induction cs as [|[tag attrib txt children|repr] rest IH]; [done| |done].
  rewrite prune_children_Element. cbn [List.find].
  rewrite local_name_is_prune.
  by destruct (local_name_is name (Element tag attrib txt children)).
Qed.

(** A loop that passes over special nodes and reads of an element only what
    [prune] keeps gives the same result on the pruned list. *)
Lemma fold_left_prune {A} (step : A -> node -> A) (cs : list node) (a : A) :
  (forall a repr, step a (Special repr) = a) ->
  (forall a c, step a (prune c) = step a c) ->
  fold_left step (prune_children cs) a = fold_left step cs a.
Proof.
  intros Hspecial Hprune. revert a.
  induction cs as [|[tag attrib txt children|repr] rest IH]; intros a;
    [done| |].
  - rewrite prune_children_Element. cbn [fold_left].
    by rewrite Hprune, IH.
  - rewrite prune_children_Special. cbn [fold_left].
    by rewrite Hspecial, IH.
Qed.

Lemma scan_dates_prune (p_children : list node) :
  scan_dates (prune_children p_children)
  = (prune <$> (scan_dates p_children).1, prune <$> (scan_dates p_children).2).
Proof.
  unfold scan_dates.
  change (@None node, @None node)
    with (prune <$> (@None node, @None node).1,
          prune <$> (@None node, @None node).2) at 1.
  generalize (@None node, @None node).
  induction p_children as [|[tag attrib txt children|repr] rest IH];
    intros [start_date end_date]; [done| |exact (IH (start_date, end_date))].
  rewrite prune_children_Element. cbn [fold_left fst snd].
  rewrite !local_name_is_prune.
  destruct (local_name_is "startDate" _);
    [exact (IH (Some (Element tag attrib txt children), end_date))|].
  destruct (local_name_is "endDate" _);
    [exact (IH (start_date, Some (Element tag attrib txt children)))|].
  exact (IH (start_date, end_date)).
Qed.

Lemma find_segment_prune (children : list node) :
  find_segment (prune_children children) = prune <$> find_segment children.
Proof.
  unfold find_segment.
  change (@None node) with (prune <$> @None node) at 1.
  generalize (@None node).
  induction children as [|[tag attrib txt cs|repr] rest IH];
    intros segment; [done| |done].
  rewrite prune_children_Element. cbn [fold_left].
  rewrite local_name_is_prune.
  destruct (local_name_is "entity" _); [|apply IH].
  rewrite children_of_prune, find_prune.
  destruct (List.find _ (children_of _)) as [e_child|]; [|apply IH].
  apply (IH (Some e_child)).
Qed.

Lemma member_of_prune (dim : node) : member_of (prune dim) = member_of dim.
Proof.
  destruct dim as [tag attrib txt children|repr]; [|done].
  by rewrite prune_Element.
Qed.

Lemma segment_children_prune (children : list node) :
  segment_children (prune_children children)
  = prune_children (segment_children children).
Proof.
  unfold segment_children. rewrite find_segment_prune.
  destruct (find_segment children) as [segment|]; [|done].
  apply children_of_prune.
Qed.

Lemma dimensions_of_prune (children : list node) :
  dimensions_of (prune_children children) = dimensions_of children.
Proof.
  unfold dimensions_of. rewrite segment_children_prune.
  apply fold_left_prune; [done|].
  intros m c. unfold store. by rewrite member_of_prune.
Qed.

Lemma with_period_prune (children : list node) (context_data : pydict) :
  with_period (prune_children children) context_data
  = with_period children context_data.
Proof.
  unfold with_period. rewrite find_prune.
  destruct (List.find _ children) as [period|]; [|done]. cbn [fmap option_fmap option_map].
  rewrite children_of_prune, find_prune.
  destruct (List.find _ (children_of period)) as [instant|];
    cbn [fmap option_fmap option_map].
  - by rewrite (stripped_text_prune (Some instant) : stripped_text (Some (prune instant)) = _).
  - rewrite scan_dates_prune.
    destruct (scan_dates (children_of period)) as [start_date end_date].
    cbn [fst snd]. by rewrite !stripped_text_prune.
Qed.

Lemma context_record_prune (children : list node) :
  context_record (prune_children children) = context_record children.
Proof.
  unfold context_record. by rewrite dimensions_of_prune, with_period_prune.
Qed.

Lemma context_entry_prune (elem : node) :
  context_entry (prune elem) = context_entry elem.
Proof.
  destruct elem as [tag attrib txt children|repr]; [|done].
  rewrite prune_Element. cbn [context_entry].
  by rewrite context_record_prune.
Qed.

Lemma fact_of_prune ns_map contexts (elem : node) :
  fact_of ns_map contexts (prune elem) = fact_of ns_map contexts elem.
Proof.
  destruct elem as [tag attrib txt children|repr]; [|done].
  by rewrite prune_Element.
Qed.

Lemma omap_prune {B} (f : node -> option B) (cs : list node) :
  (forall repr, f (Special repr) = None) ->
  (forall c, f (prune c) = f c) ->
  omap f (prune_children cs) = omap f cs.
Proof.
  intros Hspecial Hprune.
  induction cs as [|[tag attrib txt children|repr] rest IH]; [done| |].
  - rewrite prune_children_Element. cbn [omap list_omap].
    by rewrite Hprune, IH.
  - rewrite prune_children_Special. cbn [omap list_omap].
    by rewrite Hspecial, IH.
Qed.

Definition pruned (d : document) : document :=
  {| root := prune (root d); nsmap := nsmap d |}.

Lemma iter_pruned (d : document) :
  iter (root (pruned d)) = prune_children (iter (root d))
  \/ exists repr, root d = Special repr.
Proof.
  destruct (root d) as [tag attrib txt children|repr] eqn:Hroot;
    [left | right; eauto].
  cbn [pruned root]. rewrite Hroot. by apply iter_prune.
Qed.

Lemma contexts_of_pruned (d : document) :
  contexts_of (pruned d) = contexts_of d.
Proof.
  unfold contexts_of.
  destruct (iter_pruned d) as [->|[repr Hroot]].
  - apply fold_left_prune; [done|].
    intros m c. unfold store. by rewrite context_entry_prune.
  - cbn [pruned root]. by rewrite Hroot.
Qed.

Lemma extract_facts_pruned (d : document) :
  extract_facts (pruned d) = extract_facts d.
Proof.
  rewrite !extract_facts_ok, contexts_of_pruned. f_equal. cbn [nsmap pruned].
  destruct (iter_pruned d) as [->|[repr Hroot]].
  - apply omap_prune; [done|]. apply fact_of_prune.
  - cbn [pruned root]. by rewrite Hroot.
Qed.

(** Below an element, the pruned tree holds elements only. *)
Lemma pruned_elements (n : node) :
  is_element n = true ->
  Forall (fun m => is_element m = true) (iter (prune n)).
Proof.
  intros Hn. rewrite (iter_prune n Hn). unfold prune_children.
  apply Forall_forall. intros m (c & -> & Hc)%list_elem_of_fmap.
  apply list_elem_of_In, List.filter_In in Hc as [_ Hc].
  destruct c; [by rewrite prune_Element | done].
Qed.

(** X10: comments, processing instructions and entities never change the
    result: a document and the document from which every such node has been
    taken out, at every depth, with its elements, their attributes and their
    texts as they were, give the same facts. *)
Theorem special_nodes_are_ignored (fs fs' : filesystem)
    (file_path file_path' : string) (d : document) :
  etree_parse fs file_path = Tree (Some d) ->
  etree_parse fs' file_path' = Tree (Some (pruned d)) ->
  parse_xbrl_file fs' file_path' = parse_xbrl_file fs file_path.
Proof.
  intros Hd Hpruned. unfold parse_xbrl_file, parse_body.
  by rewrite Hd, Hpruned, extract_facts_pruned.
Qed.

(** [doc_ex] with a comment before the context, a processing instruction
    inside its period, and a comment inside the fact. *)
Definition doc_commented : document := {|
  root :=
    Element (xbrli "xbrl") ∅ None
      [ Special "<cyfunction Comment at 0x7f3a5c0b1a00>";
        Element (xbrli "context") {[ "id" := "C1" ]} None
          [ Element (xbrli "period") ∅ None
              [ Special "<cyfunction ProcessingInstruction at 0x7f3a5c0b1ba0>";
                Element (xbrli "instant") ∅ (Some "2023-12-31") [] ] ];
        Element (us_gaap "Assets")
          (<["unitRef" := "USD"]> {[ "contextRef" := "C1" ]}) (Some "1000")
          [ Special "<cyfunction Comment at 0x7f3a5c0b1a00>" ] ];
  nsmap := ns_ex
|}.

Lemma special_nodes_are_ignored_witness :
  pruned doc_commented = doc_ex
  /\ parse_xbrl_file (always doc_ex) "report1.xbrl"
     = parse_xbrl_file (always doc_commented) "report1.xbrl".
Proof.
  split; [reflexivity|].
  exact (special_nodes_are_ignored (always doc_commented) (always doc_ex)
           "report1.xbrl" "report1.xbrl" doc_commented eq_refl eq_refl).
Defined.
